(** * Paginated data access: query fetch, Airtable adapter, grid table store

    A shallow embedding of three source files

    - [packages/frontend-core/src/fetch/QueryFetch.js]
    - the Airtable integration ([AirtableIntegration], TypeScript)
    - [packages/frontend-core/src/components/grid/stores/table.js]

    and the properties their specification states about them, followed
    by further properties of the same code (the enrichment of
    definitions, the parameters of a request, the pages of a table, the
    subscriptions of the grid).

    The code is JavaScript: absent members, truthiness, optional chaining
    and exceptions decide most of the properties, so the embedding starts
    with the fragment of the JavaScript value language the three files
    use (module [JS]).  Each source function is then a Rocq function of
    the same name over these values. *)

From Stdlib Require Import ZArith List String Ascii Bool Lia.
From Stdlib Require Import DecimalString DecimalPos.
Import ListNotations.

Open Scope string_scope.
Open Scope Z_scope.

Set Warnings "-register-all".

(* ================================================================== *)
(** * JavaScript values and operators *)
(* ================================================================== *)

Module JS.

(** Numbers.  The code counts rows and pages: the embedding keeps the
    integers (exact in a double below 2^53) and [NaN], which [parseInt]
    produces.  Fractions and infinities are outside the model. *)
Inductive num : Type :=
| NaN
| Int (z : Z).

(** Values.  The members of an object are listed in the order in which
    the engine enumerates them ([Object.entries], spread).  Arrays carry
    their elements only. *)
Inductive value : Type :=
| JUndefined
| JNull
| JBool (b : bool)
| JNum (n : num)
| JStr (s : string)
| JObj (members : list (string * value))
| JArr (elems : list value).

Definition JInt (z : Z) : value := JNum (Int z).

(** ** Completions: a call returns a value or throws one *)

Inductive outcome (A : Type) : Type :=
| Return (a : A)
| Throw (e : value).
Arguments Return {A} a.
Arguments Throw {A} e.

Definition bind {A B} (m : outcome A) (k : A -> outcome B) : outcome B :=
  match m with
  | Return a => k a
  | Throw e => Throw e
  end.

(** [try { body } catch (err) { handler }] *)
Definition try_catch {A} (body : outcome A) (handler : value -> outcome A)
  : outcome A :=
  match body with
  | Return a => Return a
  | Throw e => handler e
  end.

Definition TypeError : value := JObj [("name", JStr "TypeError")].

(** ** Truthiness and nullishness *)

(** [ToBoolean]: what [!!v], [if (v)], [v || w] and [v && w] test. *)
Definition truthy (v : value) : bool :=
  match v with
  | JUndefined | JNull => false
  | JBool b => b
  | JNum NaN => false
  | JNum (Int z) => negb (z =? 0)
  | JStr s => negb (String.eqb s "")
  | JObj _ | JArr _ => true
  end.

(** [v == null]: what [?.] and [??] test. *)
Definition nullish (v : value) : bool :=
  match v with
  | JUndefined | JNull => true
  | _ => false
  end.

(** [a || b] *)
Definition js_or (a b : value) : value := if truthy a then a else b.
(** [a && b] *)
Definition js_and (a b : value) : value := if truthy a then b else a.
(** [a ?? b] *)
Definition coalesce (a b : value) : value := if nullish a then b else a.

(** ** Strings *)

Definition string_of_Z (z : Z) : string := NilZero.string_of_int (Z.to_int z).

Definition string_of_num (n : num) : string :=
  match n with
  | NaN => "NaN"
  | Int z => string_of_Z z
  end.

(** [ToString], as a template literal or a property key applies it.
    An array prints its elements joined by commas, [null] and
    [undefined] elements as nothing. *)
Fixpoint to_string (v : value) : string :=
  match v with
  | JUndefined => "undefined"
  | JNull => "null"
  | JBool true => "true"
  | JBool false => "false"
  | JNum n => string_of_num n
  | JStr s => s
  | JObj _ => "[object Object]"
  | JArr xs =>
      (fix join (l : list value) : string :=
         match l with
         | [] => ""
         | x :: r =>
             let s := match x with
                      | JUndefined | JNull => ""
                      | _ => to_string x
                      end in
             match r with
             | [] => s
             | _ :: _ => s ++ "," ++ join r
             end
         end) xs
  end.

Definition is_space (c : ascii) : bool :=
  let n := nat_of_ascii c in
  (Nat.eqb n 32 || (Nat.leb 9 n && Nat.leb n 13))%bool.

Fixpoint skip_space (s : string) : string :=
  match s with
  | String c r => if is_space c then skip_space r else s
  | EmptyString => s
  end.

(** Value of a digit in bases up to 36. *)
Definition digit_val (c : ascii) : option Z :=
  let n := Z.of_nat (nat_of_ascii c) in
  if (48 <=? n) && (n <=? 57) then Some (n - 48)
  else if (97 <=? n) && (n <=? 122) then Some (n - 87)
  else if (65 <=? n) && (n <=? 90) then Some (n - 55)
  else None.

(** Longest prefix of digits of the radix, read as a number; [None] when
    the string does not start with a digit.  The rest of the string is
    returned too. *)
Fixpoint read_digits (radix : Z) (acc : option Z) (s : string)
  : option Z * string :=
  match s with
  | EmptyString => (acc, s)
  | String c r =>
      match digit_val c with
      | Some d =>
          if d <? radix
          then read_digits radix
                 (Some (match acc with Some a => a * radix + d | None => d end)) r
          else (acc, s)
      | None => (acc, s)
      end
  end.

Definition strip_sign (s : string) : bool * string :=
  match s with
  | String "-" r => (true, r)
  | String "+" r => (false, r)
  | _ => (false, s)
  end.

Definition strip_hex (s : string) : option string :=
  match s with
  | String "0" (String "x" r) | String "0" (String "X" r) => Some r
  | _ => None
  end.

(** [parseInt(s)] without a radix argument: leading white space, a sign,
    a [0x] prefix for base 16, then as many digits as there are. *)
Definition parseInt_string (s : string) : num :=
  let (neg, body) := strip_sign (skip_space s) in
  let (radix, digits) :=
    match strip_hex body with
    | Some r => (16, r)
    | None => (10, body)
    end in
  match fst (read_digits radix None digits) with
  | Some z => Int (if neg then - z else z)
  | None => NaN
  end.

(** [parseInt(v)] converts its argument to a string first. *)
Definition parseInt (v : value) : num := parseInt_string (to_string v).

Fixpoint all_space (s : string) : bool :=
  match s with
  | EmptyString => true
  | String c r => is_space c && all_space r
  end.

(** [StringToNumber] on the integer literals: white space around, the
    empty string is 0, a signed decimal or an unsigned [0x] literal.
    Any other text is [NaN] here (literals with a fraction or an
    exponent denote numbers outside the model). *)
Definition number_of_string (s : string) : num :=
  let t := skip_space s in
  if all_space t then Int 0
  else
    match strip_hex t with
    | Some r =>
        match read_digits 16 None r with
        | (Some z, rest) => if all_space rest then Int z else NaN
        | (None, _) => NaN
        end
    | None =>
        let (neg, body) := strip_sign t in
        match read_digits 10 None body with
        | (Some z, rest) =>
            if all_space rest then Int (if neg then - z else z) else NaN
        | (None, _) => NaN
        end
    end.

(** [ToNumber] *)
Definition to_number (v : value) : num :=
  match v with
  | JUndefined => NaN
  | JNull => Int 0
  | JBool b => Int (if b then 1 else 0)
  | JNum n => n
  | JStr s => number_of_string s
  | JObj _ | JArr _ => number_of_string (to_string v)
  end.

(** ** Arithmetic and comparison *)

Definition num_binop (f : Z -> Z -> Z) (a b : num) : num :=
  match a, b with
  | Int x, Int y => Int (f x y)
  | _, _ => NaN
  end.

(** [a * b] and [a - b] convert both operands to numbers. *)
Definition js_mul (a b : value) : value :=
  JNum (num_binop Z.mul (to_number a) (to_number b)).
Definition js_sub (a b : value) : value :=
  JNum (num_binop Z.sub (to_number a) (to_number b)).

(** [a + b] concatenates as soon as one operand is a string (objects and
    arrays turn into strings first) and adds numbers otherwise. *)
Definition stringy (v : value) : bool :=
  match v with
  | JStr _ | JObj _ | JArr _ => true
  | _ => false
  end.
Definition js_add (a b : value) : value :=
  if (stringy a || stringy b)%bool
  then JStr (to_string a ++ to_string b)
  else JNum (num_binop Z.add (to_number a) (to_number b)).

(** [a > b] and [a <= b] with a number on one side: numeric comparison,
    false as soon as one side is [NaN]. *)
Definition num_ltb (a b : num) : bool :=
  match a, b with
  | Int x, Int y => x <? y
  | _, _ => false
  end.
Definition num_leb (a b : num) : bool :=
  match a, b with
  | Int x, Int y => x <=? y
  | _, _ => false
  end.
Definition js_gt_num (a : value) (b : Z) : bool := num_ltb (Int b) (to_number a).
Definition js_le_num (a : value) (b : Z) : bool := num_leb (to_number a) (Int b).

(** [a === b].  Two objects are strictly equal when they are the same
    reference.  The embedding has no references; the operands the
    modelled code compares are row counts, limits, pagination kinds and
    table identifiers (numbers, strings, [undefined]), and an object or
    an array on either side compares unequal, as two separately built
    objects do. *)
Definition strict_eq (a b : value) : bool :=
  match a, b with
  | JUndefined, JUndefined => true
  | JNull, JNull => true
  | JBool x, JBool y => Bool.eqb x y
  | JNum (Int x), JNum (Int y) => x =? y
  | JStr x, JStr y => String.eqb x y
  | _, _ => false
  end.

(** ** Members *)

Fixpoint lookup (k : string) (ms : list (string * value)) : option value :=
  match ms with
  | [] => None
  | (k', v) :: r => if String.eqb k k' then Some v else lookup k r
  end.

(** Writing a member keeps its place when the key exists and appends it
    otherwise. *)
Fixpoint set_member (ms : list (string * value)) (k : string) (v : value)
  : list (string * value) :=
  match ms with
  | [] => [(k, v)]
  | (k', v') :: r =>
      if String.eqb k k' then (k, v) :: r else (k', v') :: set_member r k v
  end.

Fixpoint remove_member (k : string) (ms : list (string * value))
  : list (string * value) :=
  match ms with
  | [] => []
  | (k', v) :: r =>
      if String.eqb k k' then remove_member k r else (k', v) :: remove_member k r
  end.

Fixpoint index_from (i : Z) (xs : list value) : list (string * value) :=
  match xs with
  | [] => []
  | x :: r => (string_of_Z i, x) :: index_from (i + 1) r
  end.

Fixpoint chars (s : string) : list value :=
  match s with
  | EmptyString => []
  | String c r => JStr (String c EmptyString) :: chars r
  end.

(** Own enumerable members, as [Object.entries(v)] and [{...v}] see
    them: the members of an object, the indexed elements of an array,
    the indexed characters of a string, nothing for other values. *)
Definition entries (v : value) : list (string * value) :=
  match v with
  | JObj ms => ms
  | JArr xs => index_from 0 xs
  | JStr s => index_from 0 (chars s)
  | _ => []
  end.

(** [v[k]] on a value that is neither [null] nor [undefined]. *)
Definition prop (v : value) (k : string) : value :=
  match v with
  | JObj ms => match lookup k ms with Some x => x | None => JUndefined end
  | JArr xs =>
      if String.eqb k "length" then JInt (Z.of_nat (List.length xs))
      else match lookup k (index_from 0 xs) with Some x => x | None => JUndefined end
  | JStr s =>
      if String.eqb k "length" then JInt (Z.of_nat (String.length s))
      else match lookup k (index_from 0 (chars s)) with
           | Some x => x
           | None => JUndefined
           end
  | _ => JUndefined
  end.

(** [v.k]: a [TypeError] on [null] and [undefined]. *)
Definition get (v : value) (k : string) : outcome value :=
  if nullish v then Throw TypeError else Return (prop v k).

(** [v?.k] *)
Definition oget (v : value) (k : string) : value :=
  if nullish v then JUndefined else prop v k.

(** An array index as a member key: the decimal numeral of a natural
    number, without sign or leading zeros. *)
Definition index_of_key (k : string) : option nat :=
  match read_digits 10 None k with
  | (Some z, EmptyString) =>
      if String.eqb (string_of_Z z) k then Some (Z.to_nat z) else None
  | _ => None
  end.

(** [xs[i] = x]: the element is replaced; an index past the end extends
    the array, the gap reading as [undefined]. *)
Fixpoint set_index (xs : list value) (i : nat) (x : value) : list value :=
  match i, xs with
  | O, [] => [x]
  | O, _ :: r => x :: r
  | S j, [] => JUndefined :: set_index [] j x
  | S j, y :: r => y :: set_index r j x
  end.

(** [v[k] = x] in strict code (modules and class bodies are strict):
    a [TypeError] on [null], [undefined] and on primitives.  On an
    array an index is written; a member of another name ([length]
    included) is not tracked by the model, which keeps the elements
    only. *)
Definition set (v : value) (k : string) (x : value) : outcome value :=
  match v with
  | JObj ms => Return (JObj (set_member ms k x))
  | JArr xs =>
      match index_of_key k with
      | Some i => Return (JArr (set_index xs i x))
      | None => Return (JArr xs)
      end
  | _ => Throw TypeError
  end.

(** What [for (... of v)] iterates over: the elements of an array, the
    characters of a string; any other value of the model is not
    iterable. *)
Definition iterate (v : value) : outcome (list value) :=
  match v with
  | JArr xs => Return xs
  | JStr s => Return (chars s)
  | _ => Throw TypeError
  end.

(** ** Array and string methods *)

(** Relative index of [slice]: [NaN] is 0, a negative index counts from
    the end, everything is clamped to the length. *)
Definition clamp_index (len : Z) (i : value) : Z :=
  match to_number i with
  | NaN => 0
  | Int z => if z <? 0 then Z.max (len + z) 0 else Z.min z len
  end.

(** [xs.slice(start, end)] *)
Definition slice {A} (xs : list A) (start stop : value) : list A :=
  let len := Z.of_nat (List.length xs) in
  let from := clamp_index len start in
  let to := clamp_index len stop in
  firstn (Z.to_nat (to - from)) (skipn (Z.to_nat from) xs).

Definition lower (c : ascii) : ascii :=
  let n := nat_of_ascii c in
  if (Nat.leb 65 n && Nat.leb n 90)%bool then ascii_of_nat (n + 32) else c.

(** [s.toLowerCase()] on the ASCII letters. *)
Fixpoint toLowerCase (s : string) : string :=
  match s with
  | EmptyString => EmptyString
  | String c r => String (lower c) (toLowerCase r)
  end.

(** [s.replace(pat, by)] with a string pattern: the first occurrence. *)
Fixpoint replace (pat by_ s : string) : string :=
  if String.prefix pat s
  then by_ ++ String.substring (String.length pat)
                (String.length s - String.length pat) s
  else match s with
       | EmptyString => EmptyString
       | String c r => String c (replace pat by_ r)
       end.

End JS.

(* ================================================================== *)
(** * QueryFetch.js *)
(* ================================================================== *)

Module QueryFetch.
Import JS.

(** [determineFeatureFlags(definition)] *)
Definition determineFeatureFlags (definition : value) : value :=
  let supportsPagination :=
    (truthy (oget (oget (oget definition "fields") "pagination") "type")
     && truthy (oget (oget (oget definition "fields") "pagination") "location")
     && truthy (oget (oget (oget definition "fields") "pagination") "pageParam"))%bool in
  JObj [("supportsPagination", JBool supportsPagination)].

(** [this.options], [this.features] and the content of [this.store], as
    [getData] destructures them. *)
Record Options : Type := {
  datasource : value;
  limit : value;
  paginate : value
}.

Record Features : Type := {
  supportsPagination : value
}.

Record Store : Type := {
  cursor : value;
  definition : value
}.

(** [Helpers.cloneDeep]: a deep copy; values of the embedding are not
    shared, so the copy is the value. *)
Definition cloneDeep (v : value) : value := v.

(** The body of the loop that sets the default query parameters:
    [if (!parameters[param.name]) parameters[param.name] = param.default] *)
Definition applyDefault (parameters param : value) : outcome value :=
  bind (get param "name") (fun name =>
  let key := to_string name in
  if negb (truthy (prop parameters key))
  then bind (get param "default") (fun dflt => set parameters key dflt)
  else Return parameters).

Fixpoint applyDefaults (parameters : value) (params : list value)
  : outcome value :=
  match params with
  | [] => Return parameters
  | param :: rest =>
      bind (applyDefault parameters param) (fun parameters' =>
      applyDefaults parameters' rest)
  end.

(** The result of the [catch] branch. *)
Definition emptyPage : value :=
  JObj [("rows", JArr []); ("hasNextPage", JBool false)].

(** [definition?.fields?.pagination?.type] *)
Definition paginationType (store : Store) : value :=
  oget (oget (oget (definition store) "fields") "pagination") "type".

(** [getData()], up to the [try]: the payload of the request. *)
Definition queryPayload (options : Options) (features : Features)
                        (store : Store) : outcome value :=
  let datasource := datasource options in
  let limit := limit options in
  let paginate := paginate options in
  let supportsPagination := supportsPagination features in
  let cursor := cursor store in
  let type := paginationType store in
  (* Set the default query params *)
  let parameters := cloneDeep (js_or (oget datasource "queryParams") (JObj [])) in
  bind (iterate (js_or (oget datasource "parameters") (JObj []))) (fun params =>
  bind (applyDefaults parameters params) (fun parameters =>
  (* Add pagination to query if supported *)
  let queryPayload :=
    [("queryId", oget datasource "_id"); ("parameters", parameters)] in
  if truthy (js_and paginate supportsPagination)
  then
    let requestCursor :=
      if strict_eq type (JStr "page")
      then JNum (parseInt (js_or cursor (JInt 1)))
      else cursor in
    Return (JObj (set_member queryPayload "pagination"
                    (JObj [("page", requestCursor); ("limit", limit)])))
  else Return (JObj queryPayload))).

(** [getData()], inside the [try] after the [await]: the page result
    derived from the response [res]. *)
Definition pageResult (options : Options) (features : Features)
                      (store : Store) (queryPayload res : value)
  : outcome value :=
  let limit := limit options in
  let paginate := paginate options in
  let supportsPagination := supportsPagination features in
  let type := paginationType store in
  (* const { data, pagination, ...rest } = res *)
  if nullish res then Throw TypeError
  else
    let data := prop res "data" in
    let pagination := prop res "pagination" in
    let rest :=
      JObj (remove_member "pagination" (remove_member "data" (entries res))) in
    (* Derive pagination info from response *)
    let '(nextCursor, hasNextPage) :=
      if truthy (js_and paginate supportsPagination)
      then
        if strict_eq type (JStr "page")
        then
          (* For "page number" pagination, increment the existing page number *)
          (js_add (prop (prop queryPayload "pagination") "page") (JInt 1),
           js_and (JBool (strict_eq (oget data "length") limit))
                  (JBool (js_gt_num limit 0)))
        else
          (* For "cursor" pagination, the cursor should be in the response *)
          let nextCursor := oget pagination "cursor" in
          (nextCursor, JBool (negb (nullish nextCursor)))
      else (JNull, JBool false) in
    Return (JObj [("rows", js_or data (JArr []));
                  ("info", rest);
                  ("cursor", nextCursor);
                  ("hasNextPage", hasNextPage)]).

(** [getData()].  [executeQuery] is [this.API.executeQuery]; a promise
    that rejects is a [Throw]. *)
Definition getData (executeQuery : value -> outcome value)
                   (options : Options) (features : Features) (store : Store)
  : outcome value :=
  bind (queryPayload options features store) (fun queryPayload =>
  (* Execute query *)
  try_catch
    (bind (executeQuery queryPayload)
          (pageResult options features store queryPayload))
    (fun error => Return emptyPage)).

(** ** Definitions and their enrichment *)

(** [datasources.find(ds => ds._id === definition.datasourceId)] on the
    elements of an array: the first match, [undefined] without one. *)
Fixpoint findDatasource (datasources : list value) (definition : value)
  : outcome value :=
  match datasources with
  | [] => Return JUndefined
  | ds :: rest =>
      bind (get ds "_id") (fun id =>
      bind (get definition "datasourceId") (fun datasourceId =>
      if strict_eq id datasourceId then Return ds
      else findDatasource rest definition))
  end.

(** Only an array has a [find] method; calling it on another value is a
    [TypeError]. *)
Definition find (datasources definition : value) : outcome value :=
  match datasources with
  | JArr xs => findDatasource xs definition
  | _ => Throw TypeError
  end.

(** The descriptor that [enrichPagination] writes. *)
Definition mongoPagination (limit : value) : value :=
  JObj [("type", JStr "page"); ("location", JStr "query");
        ("pageParam", JObj [("limit", limit)])].

(** [enrichPagination(definition)].  The method changes the definition
    it is given; the function returns the definition after the call.
    [getDatasources] is [this.API.getDatasources()].  The object held
    by [definition.fields] is written in place, which the last [set]
    puts back into the definition. *)
Definition enrichPagination (getDatasources : outcome value)
                            (options : Options) (definition : value)
  : outcome value :=
  let datasource := datasource options in
  let limit := limit options in
  let paginate := paginate options in
  if truthy (js_and datasource paginate)
  then
    bind getDatasources (fun datasources =>
    bind (find datasources definition) (fun ds =>
    if truthy (js_and (js_and ds (prop ds "source"))
                      (JBool (strict_eq (prop ds "source") (JStr "MONGODB"))))
    then
      bind (get definition "fields") (fun fields =>
      bind (if negb (truthy fields)
            then set definition "fields" (JObj [])
            else Return definition) (fun definition =>
      bind (get definition "fields") (fun fields =>
      bind (get fields "pagination") (fun pagination =>
      bind (if negb (truthy pagination)
            then set fields "pagination" (JObj [])
            else Return fields) (fun fields =>
      (* change supportsPagination: true *)
      bind (set fields "pagination" (mongoPagination limit)) (fun fields =>
      set definition "fields" fields))))))
    else Return definition))
  else Return definition.

(** [v.k = x] on the object [v], for a write that is known to succeed. *)
Definition with_member (v : value) (k : string) (x : value) : value :=
  match v with
  | JObj ms => JObj (set_member ms k x)
  | _ => v
  end.

(** [getDefinition(datasource)].  [fetchQueryDefinition] is
    [this.API.fetchQueryDefinition].  The result is the value returned
    and the datasource after the call: when the definition comes
    without fields it is given the object [datasource.fields] itself,
    not a copy, so what the enrichment writes into the fields of the
    definition is written into the fields of the datasource. *)
Definition getDefinition (fetchQueryDefinition : value -> outcome value)
                         (getDatasources : outcome value)
                         (options : Options) (datasource : value)
  : value * value :=
  if negb (truthy (oget datasource "_id"))
  then (JNull, datasource)
  else
    match
      bind (fetchQueryDefinition (prop datasource "_id")) (fun definition =>
      (* After getting the definition of query, it loses "fields" attribute
         because of security reason from the server. However, this attribute
         needs to be inside the definition for pagination. *)
      bind (get definition "fields") (fun fields =>
      let shared := negb (truthy fields) in
      bind (if shared
            then set definition "fields" (prop datasource "fields")
            else Return definition) (fun definition =>
      bind (enrichPagination getDatasources options definition)
           (fun definition => Return (definition, shared)))))
    with
    | Return (definition, shared) =>
        (definition,
         if (shared && truthy (prop datasource "fields"))%bool
         then with_member datasource "fields" (prop definition "fields")
         else datasource)
    | Throw error => (JNull, datasource)
    end.

End QueryFetch.

(* ================================================================== *)
(** * The Airtable integration *)
(* ================================================================== *)

Module Airtable.
Import JS.

(** ** The console and the client *)

(** [console.error(message, value)] calls, oldest first. *)
Definition console : Type := list (string * value).

(** Adapter code runs against the console and may throw. *)
Definition io (A : Type) : Type := console -> outcome A * console.

Definition ret {A} (a : A) : io A := fun c => (Return a, c).
Definition throw {A} (e : value) : io A := fun c => (Throw e, c).
Definition lift {A} (o : outcome A) : io A := fun c => (o, c).

Definition io_bind {A B} (m : io A) (k : A -> io B) : io B :=
  fun c =>
    match m c with
    | (Return a, c') => k a c'
    | (Throw e, c') => (Throw e, c')
    end.

Notation "x <- m ;; k" := (io_bind m (fun x => k))
  (at level 61, m at next level, right associativity).

Definition console_error (message : string) (v : value) : io unit :=
  fun c => (Return tt, (c ++ [(message, v)])%list).

(** [try { body } catch (err) { handler }] *)
Definition try_io {A} (body : io A) (handler : value -> io A) : io A :=
  fun c =>
    match body c with
    | (Return a, c') => (Return a, c')
    | (Throw e, c') => handler e c'
    end.

(** A record as the Airtable client hands it to a page callback. *)
Record AirtableRecord : Type := {
  id : string;
  fields : value
}.

(** What [select(params).eachPage(page, done)] amounts to: the pages it
    hands to [page], in order (each [page] asks for the next one), and
    then its call of [done], with the error if a request failed. *)
Record Feed : Type := {
  pages : list (list AirtableRecord);
  failure : option value
}.

(** The Airtable client, [this.client]: per table, the three mutating
    calls and the paged selection.  A [Throw] is a call that throws or
    a promise that rejects. *)
Record Client : Type := {
  client_create : value -> value -> outcome value;
  client_update : value -> value -> outcome value;
  client_destroy : value -> value -> outcome value;
  client_select : value -> value -> outcome Feed
}.

Section Integration.

Variable client : Client.

(** [create(query)] *)
Definition create (query : value) : io value :=
  table <- lift (get query "table") ;;
  let json := prop query "json" in
  try_io
    (lift (client_create client table (JArr [JObj [("fields", json)]])))
    (fun err =>
       _ <- console_error "Error writing to airtable" err ;;
       throw err).

(** The parameters [read] passes to [select]. *)
Definition selectParams (query : value) : value :=
  JObj [("maxRecords", js_or (prop query "numRecords") (JInt 100));
        ("view", prop query "view");
        ("sort", js_or (prop query "sort") (JArr []));
        ("filterByFormula", js_or (prop query "filterByFormula") (JStr ""))].

(** [processRecords], the [done] callback of [read]: the window of the
    collected records that the promise resolves to. *)
Definition processRecords (query : value) (records : list AirtableRecord)
  : value :=
  let bookmark :=
    JNum (parseInt (coalesce (oget (prop query "pagination") "bookmark")
                             (JStr "1"))) in
  let limit := js_or (oget (prop query "pagination") "limit") (JInt 100) in
  let page := if js_le_num bookmark 1 then JInt 1 else bookmark in
  let offset := js_sub (js_mul page limit) limit in
  JArr (slice (map fields records) offset (js_mul limit page)).

(** [read(query)].  [processPage] appends each page to [records] and
    asks for the next one; [processRecords] ignores the argument of
    [done]. *)
Definition read (query : value) : io value :=
  try_io
    (table <- lift (get query "table") ;;
     feed <- lift (client_select client table (selectParams query)) ;;
     let records := fold_left (fun records partialRecords =>
                                 (records ++ partialRecords)%list)
                              (pages feed) [] in
     ret (processRecords query records))
    (fun err =>
       _ <- console_error "Error writing to airtable" err ;;
       ret (JArr [])).

(** [update(query)] *)
Definition update (query : value) : io value :=
  table <- lift (get query "table") ;;
  let id := prop query "id" in
  let json := prop query "json" in
  try_io
    (lift (client_update client table
             (JArr [JObj [("id", id); ("fields", json)]])))
    (fun err =>
       _ <- console_error "Error writing to airtable" err ;;
       throw err).

(** [delete(query)] *)
Definition delete (query : value) : io value :=
  try_io
    (table <- lift (get query "table") ;;
     lift (client_destroy client table (prop query "id")))
    (fun err =>
       _ <- console_error "Error writing to airtable" err ;;
       throw err).

(** [order?.toLowerCase().replace("ending", "")]: nothing on an absent
    order, the methods of a string, a [TypeError] on any other value
    (it has no [toLowerCase]). *)
Definition normaliseOrder (order : value) : outcome value :=
  match order with
  | JUndefined | JNull => Return JUndefined
  | JStr s => Return (JStr (replace "ending" "" (toLowerCase s)))
  | _ => Throw TypeError
  end.

(** The query [search] hands to [read]: everything before its last
    statement. *)
Definition searchQuery (originalQuery params : value) : outcome value :=
  bind (normaliseOrder
          (oget (oget (oget params "pagination") "sort") "order"))
       (fun sortOrder =>
  let sortColumn := oget (oget (oget params "pagination") "sort") "column" in
  let originalQuery :=
    if truthy (js_and sortOrder sortColumn)
    then JObj (set_member (entries originalQuery) "sort"
                 (JArr [JObj [("field", sortColumn);
                              ("direction", sortOrder)]]))
    else originalQuery in
  bind (get params "filters") (fun filters =>
  let equal := entries (js_or (oget filters "equal") (JObj [])) in
  let filterByFormula :=
    fold_left (fun acc kv =>
                 acc ++ fst kv ++ "='" ++ to_string (snd kv) ++ "',")
              equal "" in
  let originalQuery :=
    if (0 <? String.length filterByFormula)%nat
    then
      (* remove trailing comma *)
      let filterByFormula :=
        String.substring 0 (String.length filterByFormula - 1)
                         filterByFormula in
      let filterByFormula :=
        if (1 <? List.length equal)%nat
        then (* wrap in AND statement *) "AND(" ++ filterByFormula ++ ")"
        else filterByFormula in
      JObj (set_member (entries originalQuery) "filterByFormula"
              (JStr filterByFormula))
    else originalQuery in
  Return (JObj (set_member (entries originalQuery) "pagination"
                  (prop params "pagination"))))).

(** [search(originalQuery, params)] *)
Definition search (originalQuery params : value) : io value :=
  query <- lift (searchQuery originalQuery params) ;;
  read query.

End Integration.

(** ** The connection test *)

Definition connected : value := JObj [("connected", JBool true)].

(** [testConnection()].  [makeRequest] is [this.client.makeRequest],
    [base] is [this.config.base] and [now] is what [Date.now()]
    returns, the milliseconds of the clock. *)
Definition testConnection (makeRequest : value -> outcome value)
                          (base : value) (now : Z) : outcome value :=
  let mockTable := to_string (JInt now) in
  try_catch
    (bind (makeRequest (JObj [("path", JStr ("/" ++ mockTable))])) (fun _ =>
     Return connected))
    (fun e =>
       bind (get e "message") (fun message =>
       if strict_eq message
            (JStr ("Could not find table " ++ mockTable
                   ++ " in application " ++ to_string base))
       then
         (* The request managed to check the application, so the
            credentials are valid *)
         Return connected
       else
         Return (JObj [("connected", JBool false); ("error", message)]))).

End Airtable.

(* ================================================================== *)
(** * The grid's table store (table.js) *)
(* ================================================================== *)

Module TableStore.
Import JS.

Section Stores.

(** A fetch instance is an object of the fetch classes: the handlers
    read its [options] and call its [update] method, which changes the
    instance.  The class is not part of this file, so both are
    parameters. *)
Variable Fetch : Type.
Variable fetch_options : Fetch -> value.
Variable fetch_update : Fetch -> value -> Fetch.

(** A live subscription installed by [initialise]: the handler of the
    filter store or of the sort store, closed over the [$datasource]
    that was current when it was installed. *)
Inductive Subscription : Type :=
| OnFilter (datasource : value)
| OnSort (datasource : value).

(** The stores of the context, by their current content, and the
    [unsubscribers] of [initialise].  The fetch store holds no instance
    ([None], a nullish [$fetch]) or one. *)
Record Context : Type := {
  datasource : value;
  fetch : option Fetch;
  filter : value;
  sort : value;
  unsubscribers : list Subscription
}.

Definition with_fetch (ctx : Context) (f : option Fetch) : Context :=
  {| datasource := datasource ctx; fetch := f; filter := filter ctx;
     sort := sort ctx; unsubscribers := unsubscribers ctx |}.

(** [isDatasourceValid(datasource)] *)
Definition isDatasourceValid (datasource : value) : value :=
  js_and (JBool (strict_eq (oget datasource "type") (JStr "table")))
         (oget datasource "tableId").

(** [$fetch?.options?.datasource?.tableId] *)
Definition fetchTableId (f : option Fetch) : value :=
  match f with
  | None => JUndefined
  | Some f => oget (oget (fetch_options f) "datasource") "tableId"
  end.

(** The subscriber of the filter store:
    [$filter => { ... $fetch.update({ filter: $filter }) }] *)
Definition onFilter (dsource : value) (new_filter : value) (ctx : Context)
  : outcome Context :=
  (* Ensure we're updating the correct fetch *)
  let current := fetch ctx in
  bind (get dsource "tableId") (fun tableId =>
  if negb (strict_eq (fetchTableId current) tableId)
  then Return ctx
  else
    match current with
    | None => Throw TypeError
    | Some f =>
        Return (with_fetch ctx
                  (Some (fetch_update f (JObj [("filter", new_filter)]))))
    end).

(** The subscriber of the sort store:
    [$sort => { ... $fetch.update({ sortOrder, sortColumn }) }] *)
Definition onSort (dsource : value) (new_sort : value) (ctx : Context)
  : outcome Context :=
  (* Ensure we're updating the correct fetch *)
  let current := fetch ctx in
  bind (get dsource "tableId") (fun tableId =>
  if negb (strict_eq (fetchTableId current) tableId)
  then Return ctx
  else
    match current with
    | None => Throw TypeError
    | Some f =>
        bind (get new_sort "order") (fun order =>
        Return (with_fetch ctx
                  (Some (fetch_update f
                           (JObj [("sortOrder", js_or order (JStr "ascending"));
                                  ("sortColumn", prop new_sort "column")])))))
    end).

(** What the filter store does with its subscribers of this file when
    its value is set: it calls them in the order they subscribed. *)
Fixpoint notifyFilter (subs : list Subscription) (ctx : Context)
  : outcome Context :=
  match subs with
  | [] => Return ctx
  | OnFilter ds :: rest =>
      bind (onFilter ds (filter ctx) ctx) (notifyFilter rest)
  | OnSort _ :: rest => notifyFilter rest ctx
  end.

Fixpoint notifySort (subs : list Subscription) (ctx : Context)
  : outcome Context :=
  match subs with
  | [] => Return ctx
  | OnSort ds :: rest =>
      bind (onSort ds (sort ctx) ctx) (notifySort rest)
  | OnFilter _ :: rest => notifySort rest ctx
  end.

(** [filter.set(v)] and [sort.set(v)] *)
Definition setFilter (v : value) (ctx : Context) : outcome Context :=
  let ctx := {| datasource := datasource ctx; fetch := fetch ctx; filter := v;
                sort := sort ctx; unsubscribers := unsubscribers ctx |} in
  notifyFilter (unsubscribers ctx) ctx.

Definition setSort (v : value) (ctx : Context) : outcome Context :=
  let ctx := {| datasource := datasource ctx; fetch := fetch ctx;
                filter := filter ctx; sort := v;
                unsubscribers := unsubscribers ctx |} in
  notifySort (unsubscribers ctx) ctx.

(** [unsubscribers.push(store.subscribe(handler))]: a new subscriber is
    called at once with the current value of the store. *)
Definition subscribe (sub : Subscription) (ctx : Context) : outcome Context :=
  bind (match sub with
        | OnFilter ds => onFilter ds (filter ctx) ctx
        | OnSort ds => onSort ds (sort ctx) ctx
        end)
       (fun ctx =>
  Return {| datasource := datasource ctx; fetch := fetch ctx;
            filter := filter ctx; sort := sort ctx;
            unsubscribers := (unsubscribers ctx ++ [sub])%list |}).

(** The subscriber of the datasource store, the body of [initialise]. *)
Definition onDatasource (dsource : value) (ctx : Context) : outcome Context :=
  (* Clear previous subscriptions *)
  let ctx := {| datasource := datasource ctx; fetch := fetch ctx;
                filter := filter ctx; sort := sort ctx;
                unsubscribers := [] |} in
  if negb (truthy (isDatasourceValid dsource))
  then Return ctx
  else
    (* Wipe state *)
    bind (setFilter (JArr []) ctx) (fun ctx =>
    bind (setSort (JObj [("column", JNull); ("order", JStr "ascending")]) ctx)
         (fun ctx =>
    (* Update fetch when filter changes *)
    bind (subscribe (OnFilter dsource) ctx) (fun ctx =>
    (* Update fetch when sorting changes *)
    subscribe (OnSort dsource) ctx))).

(** [initialise(context)]: subscribing to the datasource store runs the
    subscriber on the current datasource. *)
Definition initialise (ctx : Context) : outcome Context :=
  onDatasource (datasource ctx) ctx.

(** What can happen to the stores afterwards. *)
Inductive Event : Type :=
| DatasourceSet (v : value)
| FetchSet (f : option Fetch)
| FilterSet (v : value)
| SortSet (v : value).

Definition step (e : Event) (ctx : Context) : outcome Context :=
  match e with
  | DatasourceSet v =>
      onDatasource v {| datasource := v; fetch := fetch ctx;
                        filter := filter ctx; sort := sort ctx;
                        unsubscribers := unsubscribers ctx |}
  | FetchSet f => Return (with_fetch ctx f)
  | FilterSet v => setFilter v ctx
  | SortSet v => setSort v ctx
  end.

End Stores.

(** ** The actions of [createActions] *)

(** The calls of [context.API] that the actions make.  A [Throw] is a
    promise that rejects. *)
Record API : Type := {
  api_fetchTableDefinition : value -> outcome value;
  api_saveTable : value -> outcome value;
  api_saveRow : value -> value -> outcome value;
  api_deleteRows : value -> outcome value;
  api_searchTable : value -> outcome value
}.

Definition SuppressErrors : value := JBool true.

Section Actions.

Variable api : API.

(** The content of the datasource store, [get(datasource)], when an
    action runs. *)
Variable current : value.

(** [refreshDefinition()]: the value that is set into the definition
    store. *)
Definition refreshDefinition : outcome value :=
  bind (get current "tableId") (fun tableId =>
  api_fetchTableDefinition api tableId).

(** [saveDefinition(newDefinition)] *)
Definition saveDefinition (newDefinition : value) : outcome value :=
  bind (api_saveTable api newDefinition) (fun _ => Return JUndefined).

(** [saveRow(row)], which is both [addRow] and [updateRow]. *)
Definition saveRow (row : value) : outcome value :=
  bind (set row "tableId" (oget current "tableId")) (fun row =>
  api_saveRow api row SuppressErrors).

(** [deleteRows(rows)] *)
Definition deleteRows (rows : value) : outcome value :=
  bind (get current "tableId") (fun tableId =>
  bind (api_deleteRows api (JObj [("tableId", tableId); ("rows", rows)]))
       (fun _ => Return JUndefined)).

(** [getRow(id)] *)
Definition getRow (id : value) : outcome value :=
  bind (get current "tableId") (fun tableId =>
  bind (api_searchTable api
          (JObj [("tableId", tableId);
                 ("limit", JInt 1);
                 ("query", JObj [("equal", JObj [("_id", id)])]);
                 ("paginate", JBool false)]))
       (fun res => Return (oget (oget res "rows") "0"))).

End Actions.

End TableStore.

(* ================================================================== *)
(** * Facts about the operators *)
(* ================================================================== *)

Module JSFacts.
Import JS.

Lemma truthy_js_and (a b : value) :
  truthy (js_and a b) = (truthy a && truthy b)%bool.
Proof.
  unfold js_and. destruct (truthy a) eqn:Ha; simpl; [reflexivity | exact Ha].
Qed.

Lemma oget_nullish (v : value) (k : string) :
  nullish v = true -> oget v k = JUndefined.
Proof. unfold oget. intros ->. reflexivity. Qed.

Lemma truthy_not_nullish (v : value) : truthy v = true -> nullish v = false.
Proof. destruct v; simpl; congruence. Qed.

Lemma strict_eq_eq (a b : value) : strict_eq a b = true -> a = b.
Proof.
  destruct a as [| |x|[|x]|x|ms|xs], b as [| |y|[|y]|y|ms'|ys];
    simpl; try congruence.
  - intros H. apply Bool.eqb_prop in H. congruence.
  - intros H. apply Z.eqb_eq in H. congruence.
  - intros H. apply String.eqb_eq in H. congruence.
Qed.

Lemma js_and_bools (x y : bool) : js_and (JBool x) (JBool y) = JBool (x && y).
Proof. destruct x; reflexivity. Qed.

End JSFacts.

(* ================================================================== *)
(** * Properties of QueryFetch.js *)
(* ================================================================== *)

Module QueryFetchProps.
Import JS JSFacts QueryFetch.

(** ** Feature negotiation *)

(** [definition.fields.pagination[k]], or [undefined] as soon as a step
    of the path is missing. *)
Definition paginationMember (definition : value) (k : string) : value :=
  oget (oget (oget definition "fields") "pagination") k.

(** A member is declared when it holds a set value: anything but a
    missing member, [null] and the blank values ([""], [0], [NaN],
    [false]). *)
Definition declared (definition : value) (k : string) : Prop :=
  truthy (paginationMember definition k) = true.

(** A member is absent when the path to it stops at a missing member or
    at [null]. *)
Definition absent (definition : value) (k : string) : Prop :=
  nullish (paginationMember definition k) = true.

Lemma paginationMember_no_definition (definition : value) (k : string) :
  nullish definition = true
  \/ nullish (oget definition "fields") = true
  \/ nullish (oget (oget definition "fields") "pagination") = true ->
  paginationMember definition k = JUndefined.
Proof.
  unfold paginationMember. intros [H | [H | H]].
  - rewrite (oget_nullish definition "fields" H). reflexivity.
  - rewrite (oget_nullish _ "pagination" H). reflexivity.
  - apply oget_nullish, H.
Qed.

(** C1.  [determineFeatureFlags] is total: it returns a descriptor
    [{ supportsPagination }] with a boolean for every definition, also
    one without fields.  The boolean is true exactly when the
    definition's pagination metadata declares a type, a location and a
    pageParam, all three; it is false as soon as one of the three is
    absent, and false when the definition, its fields or its pagination
    metadata are missing altogether. *)
Theorem determineFeatureFlags_all_three (definition : value) :
  exists b : bool,
    determineFeatureFlags definition = JObj [("supportsPagination", JBool b)]
    /\ (b = true <->
        declared definition "type" /\ declared definition "location"
        /\ declared definition "pageParam")
    /\ (absent definition "type" \/ absent definition "location"
        \/ absent definition "pageParam" -> b = false)
    /\ (nullish definition = true
        \/ nullish (oget definition "fields") = true
        \/ nullish (oget (oget definition "fields") "pagination") = true ->
        b = false).
Proof.
  unfold determineFeatureFlags, declared, absent.
  fold (paginationMember definition "type").
  fold (paginationMember definition "location").
  fold (paginationMember definition "pageParam").
  eexists. split; [reflexivity | ].
  assert (Habs : forall v, nullish v = true -> truthy v = false)
    by (intros v; destruct v; simpl; congruence).
  split; [ | split ].
  - rewrite !andb_true_iff. tauto.
  - intros [H | [H | H]]; rewrite (Habs _ H);
      rewrite ?andb_false_r; reflexivity.
  - intros H.
    rewrite (paginationMember_no_definition definition "type" H).
    reflexivity.
Qed.

(** The descriptor that the enrichment for MongoDB writes is a full
    declaration; a partial or blank declaration, a definition without
    fields and no definition at all are not. *)
Example flags_of_full_declaration :
  determineFeatureFlags
    (JObj [("fields",
            JObj [("pagination",
                   JObj [("type", JStr "page"); ("location", JStr "query");
                         ("pageParam", JObj [("limit", JInt 10)])])])])
  = JObj [("supportsPagination", JBool true)].
Proof. reflexivity. Qed.

Example flags_of_partial_declaration :
  determineFeatureFlags
    (JObj [("fields",
            JObj [("pagination",
                   JObj [("type", JStr "page"); ("pageParam", JStr "p")])])])
  = JObj [("supportsPagination", JBool false)]
  /\ determineFeatureFlags
       (JObj [("fields",
               JObj [("pagination",
                      JObj [("type", JStr "page"); ("location", JStr "query");
                            ("pageParam", JStr "")])])])
     = JObj [("supportsPagination", JBool false)].
Proof. split; reflexivity. Qed.

Example flags_without_definition :
  determineFeatureFlags JUndefined = JObj [("supportsPagination", JBool false)]
  /\ determineFeatureFlags JNull = JObj [("supportsPagination", JBool false)]
  /\ determineFeatureFlags (JObj [("name", JStr "q")])
     = JObj [("supportsPagination", JBool false)]
  /\ determineFeatureFlags (JObj [("fields", JObj [])])
     = JObj [("supportsPagination", JBool false)].
Proof. repeat split; reflexivity. Qed.

(** ** Page results *)

Lemma js_add_one (p : num) :
  js_add (JNum p) (JInt 1) = JNum (num_binop Z.add p (Int 1)).
Proof. reflexivity. Qed.

(** The payload of a paginated request carries the requested page. *)
Lemma queryPayload_paginated (o : Options) (f : Features) (s : Store)
      (payload : value) :
  truthy (js_and (paginate o) (supportsPagination f)) = true ->
  queryPayload o f s = Return payload ->
  prop (prop payload "pagination") "page"
  = (if strict_eq (paginationType s) (JStr "page")
     then JNum (parseInt (js_or (cursor s) (JInt 1)))
     else cursor s)
  /\ prop (prop payload "pagination") "limit" = limit o.
Proof.
  intros Hpag. unfold queryPayload.
  destruct (iterate _) as [params | e]; simpl; [ | discriminate ].
  destruct (applyDefaults _ params) as [parameters | e]; simpl; [ | discriminate ].
  rewrite Hpag. intros [= <-]. split; reflexivity.
Qed.

(** Once the request is built, [getData] is the [try] statement. *)
Lemma getData_dispatched (api : value -> outcome value) (o : Options)
      (f : Features) (s : Store) (payload : value) :
  queryPayload o f s = Return payload ->
  getData api o f s
  = try_catch (bind (api payload) (pageResult o f s payload))
              (fun _ => Return emptyPage).
Proof. unfold getData. intros ->. reflexivity. Qed.

(** The row count [data?.length] that the page heuristic reads is the
    length of the rows that are returned, as far as a positive number
    is concerned. *)
Lemma length_of_rows (data : value) (n : Z) :
  0 < n ->
  oget data "length" = JInt n <->
  prop (js_or data (JArr [])) "length" = JInt n.
Proof.
  intros Hn. unfold js_or, oget.
  destruct (truthy data) eqn:Ht.
  - rewrite (truthy_not_nullish data Ht). tauto.
  - destruct data as [| |b|[|z]|str|ms|xs]; simpl in *; try discriminate;
      try (split; intros [= H]; lia).
    apply negb_false_iff, String.eqb_eq in Ht. subst str. simpl.
    split; intros [= H]; lia.
Qed.

(** C2.  A successful [getData] with pagination supported and enabled
    and a definition of kind "page", for a numeric limit: the result has
    the returned rows, the cursor is the requested page plus one, and
    [hasNextPage] is true if and only if the number of returned rows
    equals the limit and the limit is positive. *)
Theorem page_kind_hasNextPage
        (api : value -> outcome value) (o : Options) (f : Features)
        (s : Store) (payload res : value) (lim : num) :
  truthy (js_and (paginate o) (supportsPagination f)) = true ->
  paginationType s = JStr "page" ->
  limit o = JNum lim ->
  queryPayload o f s = Return payload ->
  api payload = Return res ->
  nullish res = false ->
  exists (rows info : value) (b : bool),
    getData api o f s
    = Return (JObj [("rows", rows); ("info", info);
                    ("cursor",
                     JNum (num_binop Z.add
                             (parseInt (js_or (cursor s) (JInt 1))) (Int 1)));
                    ("hasNextPage", JBool b)])
    /\ rows = js_or (prop res "data") (JArr [])
    /\ (b = true <->
        exists n : Z,
          lim = Int n /\ prop rows "length" = JInt n /\ 0 < n).
Proof.
  intros Hpag Htype Hlim Hpayload Hres Hnn.
  rewrite (getData_dispatched api o f s payload Hpayload), Hres.
  destruct (queryPayload_paginated o f s payload Hpag Hpayload) as [Hpage _].
  simpl. unfold pageResult. rewrite Hnn, Hpag, Htype. simpl.
  rewrite Htype in Hpage. simpl in Hpage. rewrite Hpage, js_add_one, js_and_bools.
  do 3 eexists. split; [reflexivity | ]. split; [reflexivity | ].
  rewrite Hlim, andb_true_iff. unfold js_gt_num. simpl to_number.
  split.
  - intros [Heq Hgt]. apply strict_eq_eq in Heq.
    destruct lim as [| n]; simpl in Hgt; [discriminate | ].
    apply Z.ltb_lt in Hgt. exists n. split; [reflexivity | ].
    split; [ | exact Hgt ]. apply length_of_rows; assumption.
  - intros [n [-> [Hlen Hgt]]]. apply length_of_rows in Hlen; [ | exact Hgt ].
    rewrite Hlen. simpl. rewrite Z.eqb_refl. split; [reflexivity | ].
    apply Z.ltb_lt, Hgt.
Qed.

(** A query datasource with one parameter, and a definition of a given
    pagination kind. *)
Definition sampleDatasource : value :=
  JObj [("_id", JStr "query_1");
        ("parameters",
         JArr [JObj [("name", JStr "status"); ("default", JStr "open")]])].

Definition sampleDefinition (kind : string) : value :=
  JObj [("fields",
         JObj [("pagination",
                JObj [("type", JStr kind); ("location", JStr "query");
                      ("pageParam", JStr "page")])])].

Definition sampleOptions : Options :=
  {| datasource := sampleDatasource; limit := JInt 100;
     paginate := JBool true |}.

Definition sampleFeatures : Features :=
  {| supportsPagination := JBool true |}.

Definition sampleStore (kind : string) (c : value) : Store :=
  {| cursor := c; definition := sampleDefinition kind |}.

Definition samplePayload (page : value) : value :=
  JObj [("queryId", JStr "query_1");
        ("parameters", JObj [("status", JStr "open")]);
        ("pagination", JObj [("page", page); ("limit", JInt 100)])].

(** A backend that answers every request with [n] rows. *)
Definition rowsBackend (n : nat) (payload : value) : outcome value :=
  Return (JObj [("data", JArr (repeat (JObj []) n))]).

Lemma page_kind_hasNextPage_witness :
  exists (rows info : value) (b : bool),
    getData (rowsBackend 100) sampleOptions sampleFeatures
            (sampleStore "page" (JInt 3))
    = Return (JObj [("rows", rows); ("info", info);
                    ("cursor", JNum (Int 4));
                    ("hasNextPage", JBool b)])
    /\ rows = JArr (repeat (JObj []) 100)
    /\ (b = true <->
        exists n : Z,
          Int 100 = Int n /\ prop rows "length" = JInt n /\ 0 < n).
Proof.
  apply (page_kind_hasNextPage (rowsBackend 100) sampleOptions sampleFeatures
           (sampleStore "page" (JInt 3)) (samplePayload (JInt 3))
           (JObj [("data", JArr (repeat (JObj []) 100))]) (Int 100));
    reflexivity.
Defined.

(** The scenario of the specification: with a limit of 100, a response
    of 100 rows announces a next page and moves the cursor to the
    current page plus one; a response of 37 rows announces none. *)
Example full_page_has_next :
  getData (rowsBackend 100) sampleOptions sampleFeatures
          (sampleStore "page" (JInt 3))
  = Return (JObj [("rows", JArr (repeat (JObj []) 100)); ("info", JObj []);
                  ("cursor", JInt 4); ("hasNextPage", JBool true)]).
Proof. reflexivity. Qed.

Example short_page_has_no_next :
  getData (rowsBackend 37) sampleOptions sampleFeatures
          (sampleStore "page" (JInt 3))
  = Return (JObj [("rows", JArr (repeat (JObj []) 37)); ("info", JObj []);
                  ("cursor", JInt 4); ("hasNextPage", JBool false)]).
Proof. reflexivity. Qed.

(** The first page is requested when the store has no cursor yet. *)
Example first_page_cursor :
  getData (rowsBackend 100) sampleOptions sampleFeatures
          (sampleStore "page" JNull)
  = Return (JObj [("rows", JArr (repeat (JObj []) 100)); ("info", JObj []);
                  ("cursor", JInt 2); ("hasNextPage", JBool true)]).
Proof. reflexivity. Qed.

(** ** Cursor pagination *)

(** A cursor is present, in the words of the specification, when it is
    neither null nor empty. *)
Definition presentCursor (c : value) : bool :=
  (negb (nullish c) && negb (strict_eq c (JStr "")))%bool.

(** A backend that answers with no rows and a given cursor. *)
Definition cursorBackend (c : value) (payload : value) : outcome value :=
  Return (JObj [("data", JArr []); ("pagination", JObj [("cursor", c)])]).

(** C3, as stated, fails on an empty cursor: the backend answers with
    the cursor [""], which is not present in the sense of the claim, and
    [getData] returns that cursor with [hasNextPage] true. *)
Lemma empty_cursor_has_next_page :
  exists result : value,
    getData (cursorBackend (JStr "")) sampleOptions sampleFeatures
            (sampleStore "cursor" JNull)
    = Return result
    /\ prop result "cursor" = JStr ""
    /\ presentCursor (prop result "cursor") = false
    /\ prop result "hasNextPage" = JBool true.
Proof. eexists. repeat split; reflexivity. Qed.

(** C3, amended.  A successful [getData] with pagination supported and
    enabled and a definition whose kind is not "page": the cursor of the
    result is the cursor of the response, [res.pagination?.cursor], and
    [hasNextPage] is true if and only if that cursor is neither [null]
    nor [undefined] (an empty string counts as a cursor). *)
Theorem cursor_kind_next_cursor
        (api : value -> outcome value) (o : Options) (f : Features)
        (s : Store) (payload res : value) :
  truthy (js_and (paginate o) (supportsPagination f)) = true ->
  strict_eq (paginationType s) (JStr "page") = false ->
  queryPayload o f s = Return payload ->
  api payload = Return res ->
  nullish res = false ->
  exists (rows info : value) (b : bool),
    getData api o f s
    = Return (JObj [("rows", rows); ("info", info);
                    ("cursor", oget (prop res "pagination") "cursor");
                    ("hasNextPage", JBool b)])
    /\ (b = true <->
        nullish (oget (prop res "pagination") "cursor") = false).
Proof.
  intros Hpag Htype Hpayload Hres Hnn.
  rewrite (getData_dispatched api o f s payload Hpayload), Hres.
  simpl. unfold pageResult. rewrite Hnn, Hpag, Htype.
  do 3 eexists. split; [reflexivity | ].
  apply negb_true_iff.
Qed.

Lemma cursor_kind_next_cursor_witness :
  exists (rows info : value) (b : bool),
    getData (cursorBackend (JStr "rec42")) sampleOptions sampleFeatures
            (sampleStore "cursor" (JStr "rec17"))
    = Return (JObj [("rows", rows); ("info", info);
                    ("cursor", JStr "rec42");
                    ("hasNextPage", JBool b)])
    /\ (b = true <-> nullish (JStr "rec42") = false).
Proof.
  apply (cursor_kind_next_cursor (cursorBackend (JStr "rec42")) sampleOptions
           sampleFeatures (sampleStore "cursor" (JStr "rec17"))
           (samplePayload (JStr "rec17"))
           (JObj [("data", JArr []);
                  ("pagination", JObj [("cursor", JStr "rec42")])]));
    reflexivity.
Defined.

(** A response without pagination data ends the paging. *)
Example missing_cursor_has_no_next :
  getData (rowsBackend 5) sampleOptions sampleFeatures
          (sampleStore "cursor" (JStr "rec17"))
  = Return (JObj [("rows", JArr (repeat (JObj []) 5)); ("info", JObj []);
                  ("cursor", JUndefined); ("hasNextPage", JBool false)]).
Proof. reflexivity. Qed.

(** ** Failures *)

(** C4.  When the request that [getData] dispatched fails, [getData]
    returns the empty page [{ rows: [], hasNextPage: false }]; the
    error does not reach the caller. *)
Theorem failed_request_gives_empty_page
        (api : value -> outcome value) (o : Options) (f : Features)
        (s : Store) (payload e : value) :
  queryPayload o f s = Return payload ->
  api payload = Throw e ->
  getData api o f s = Return emptyPage.
Proof.
  intros Hpayload Hfail.
  rewrite (getData_dispatched api o f s payload Hpayload), Hfail.
  reflexivity.
Qed.

Lemma failed_request_gives_empty_page_witness :
  getData (fun _ => Throw (JStr "503")) sampleOptions sampleFeatures
          (sampleStore "page" JNull)
  = Return (JObj [("rows", JArr []); ("hasNextPage", JBool false)]).
Proof.
  apply (failed_request_gives_empty_page (fun _ => Throw (JStr "503"))
           sampleOptions sampleFeatures (sampleStore "page" JNull)
           (samplePayload (JInt 1)) (JStr "503"));
    reflexivity.
Defined.

(** Nothing that happens after the request is built is thrown to the
    caller, a response that cannot be destructured included. *)
Lemma getData_returns_once_dispatched
      (api : value -> outcome value) (o : Options) (f : Features)
      (s : Store) (payload : value) :
  queryPayload o f s = Return payload ->
  exists result, getData api o f s = Return result.
Proof.
  intros Hpayload. rewrite (getData_dispatched api o f s payload Hpayload).
  destruct (api payload) as [res | e]; simpl; [ | eexists; reflexivity ].
  destruct (pageResult o f s payload res); simpl; eexists; reflexivity.
Qed.

(** ** Building the request *)

(** Without a parameter list the loop over the parameters iterates over
    [{}], which is not iterable: [getData] throws before the [try]. *)
Lemma getData_needs_parameters
      (api : value -> outcome value) (o : Options) (f : Features) (s : Store) :
  truthy (oget (datasource o) "parameters") = false ->
  getData api o f s = Throw TypeError.
Proof.
  intros Hno. unfold getData, queryPayload, js_or.
  rewrite Hno. reflexivity.
Qed.

(** A query datasource that declares no parameters. *)
Definition bareDatasource : value := JObj [("_id", JStr "query_1")].

Definition bareOptions : Options :=
  {| datasource := bareDatasource; limit := JInt 100; paginate := JBool true |}.

(** C10 fails on the code: for a datasource without a parameter list
    [getData] throws a [TypeError] while it builds the request, whatever
    the backend would answer. *)
Theorem getData_without_parameters_throws (api : value -> outcome value) :
  getData api bareOptions sampleFeatures (sampleStore "page" JNull)
  = Throw TypeError.
Proof. apply getData_needs_parameters. reflexivity. Qed.

(** With an empty parameter list the same call goes through. *)
Example getData_with_empty_parameters :
  getData (rowsBackend 0)
          {| datasource := JObj [("_id", JStr "query_1"); ("parameters", JArr [])];
             limit := JInt 100; paginate := JBool true |}
          sampleFeatures (sampleStore "page" JNull)
  = Return (JObj [("rows", JArr []); ("info", JObj []);
                  ("cursor", JInt 2); ("hasNextPage", JBool false)]).
Proof. reflexivity. Qed.

End QueryFetchProps.

(* ================================================================== *)
(** * Properties of the Airtable integration *)
(* ================================================================== *)

Module AirtableProps.
Import JS Airtable.

(** ** Strings and members *)

Lemma append_assoc (a b c : string) : ((a ++ b) ++ c = a ++ (b ++ c))%string.
Proof. induction a as [| x a IH]; simpl; [reflexivity | now rewrite IH]. Qed.

Lemma length_append (a b : string) :
  String.length (a ++ b) = (String.length a + String.length b)%nat.
Proof. induction a as [| x a IH]; simpl; [reflexivity | now rewrite IH]. Qed.

Lemma substring_append (a b : string) :
  String.substring 0 (String.length a) (a ++ b) = a.
Proof.
  induction a as [| x a IH]; simpl.
  - destruct b; reflexivity.
  - now rewrite IH.
Qed.

Lemma lookup_set_member_same (ms : list (string * value)) (k : string)
      (v : value) :
  lookup k (set_member ms k v) = Some v.
Proof.
  induction ms as [| [k' v'] ms IH]; simpl.
  - now rewrite String.eqb_refl.
  - destruct (String.eqb k k') eqn:E; simpl.
    + now rewrite String.eqb_refl.
    + now rewrite E.
Qed.

Lemma lookup_set_member_other (ms : list (string * value)) (k k' : string)
      (v : value) :
  k <> k' -> lookup k (set_member ms k' v) = lookup k ms.
Proof.
  intros Hne. induction ms as [| [k0 v0] ms IH]; simpl.
  - apply String.eqb_neq in Hne. now rewrite Hne.
  - destruct (String.eqb k' k0) eqn:E; simpl.
    + apply String.eqb_eq in E. subst k0.
      apply String.eqb_neq in Hne. now rewrite Hne.
    + now rewrite IH.
Qed.

(** ** The equality filter *)

(** The equality pairs [search] iterates over:
    [Object.entries(params.filters?.equal || {})]. *)
Definition equalityPairs (params : value) : list (string * value) :=
  entries (js_or (oget (prop params "filters") "equal") (JObj [])).

(** One pair as a formula: [field='value']. *)
Definition clause (kv : string * value) : string :=
  fst kv ++ "='" ++ to_string (snd kv) ++ "'".

(** What the loop of [search] appends: each clause followed by a comma. *)
Fixpoint trailing (kvs : list (string * value)) : string :=
  match kvs with
  | [] => ""
  | kv :: rest => clause kv ++ "," ++ trailing rest
  end.

Lemma formula_loop (kvs : list (string * value)) (acc : string) :
  fold_left (fun acc kv => acc ++ fst kv ++ "='" ++ to_string (snd kv) ++ "',")
            kvs acc
  = acc ++ trailing kvs.
Proof.
  revert acc. induction kvs as [| kv rest IH]; intros acc;
    cbn [fold_left trailing].
  - induction acc as [| x acc IHacc]; simpl; [reflexivity | now rewrite <- IHacc].
  - rewrite IH. unfold clause. rewrite !append_assoc. reflexivity.
Qed.

Lemma trailing_concat (kv : string * value) (rest : list (string * value)) :
  trailing (kv :: rest)
  = String.concat "," (map clause (kv :: rest)) ++ ",".
Proof.
  revert kv. induction rest as [| kv' rest IH]; intros kv.
  - reflexivity.
  - change (trailing (kv :: kv' :: rest))
      with (clause kv ++ "," ++ trailing (kv' :: rest)).
    rewrite IH.
    change (String.concat "," (map clause (kv :: kv' :: rest)))
      with (clause kv ++ "," ++ String.concat "," (map clause (kv' :: rest))).
    rewrite !append_assoc. reflexivity.
Qed.

(** The formula without its trailing comma is the clauses joined by
    commas. *)
Lemma formula_without_trailing_comma (kv : string * value)
      (rest : list (string * value)) :
  let formula := trailing (kv :: rest) in
  (0 <? String.length formula)%nat = true
  /\ String.substring 0 (String.length formula - 1) formula
     = String.concat "," (map clause (kv :: rest)).
Proof.
  cbv zeta. rewrite trailing_concat.
  set (joined := String.concat "," (map clause (kv :: rest))).
  rewrite length_append. change (String.length ",") with 1%nat.
  split.
  - apply Nat.ltb_lt. lia.
  - replace (String.length joined + 1 - 1)%nat with (String.length joined)
      by lia.
    apply substring_append.
Qed.

(** C5.  The query that [search] hands to [read]: with one equality
    pair its formula is the clause of that pair, without [AND]; with two
    or more pairs it is the clauses, joined by commas, inside one
    [AND(...)]; with no pair [search] writes no formula into the query
    (the member is what the original query had, if anything). *)
Theorem search_equality_formula
        (client : Client) (originalQuery params q : value) :
  searchQuery originalQuery params = Return q ->
  search client originalQuery params = read client q
  /\ match equalityPairs params with
     | [] =>
         lookup "filterByFormula" (entries q)
         = lookup "filterByFormula" (entries originalQuery)
     | [kv] => prop q "filterByFormula" = JStr (clause kv)
     | kvs =>
         prop q "filterByFormula"
         = JStr ("AND(" ++ String.concat "," (map clause kvs) ++ ")")
     end.
Proof.
  intros Hq. split.
  - unfold search. rewrite Hq. reflexivity.
  - revert Hq. unfold searchQuery, equalityPairs.
    destruct (normaliseOrder _) as [sortOrder | e]; simpl; [ | discriminate ].
    unfold get. destruct (nullish params); simpl; [discriminate | ].
    set (sorted := if truthy (js_and sortOrder _) then _ else originalQuery).
    assert (Hsorted : lookup "filterByFormula" (entries sorted)
                      = lookup "filterByFormula" (entries originalQuery)).
    { subst sorted. destruct (truthy _); [ | reflexivity ].
      simpl. apply lookup_set_member_other. discriminate. }
    rewrite formula_loop. simpl append.
    destruct (entries (js_or _ _)) as [| kv rest].
    + simpl. intros [= <-]. simpl.
      rewrite lookup_set_member_other by discriminate. exact Hsorted.
    + destruct (formula_without_trailing_comma kv rest) as [Hlen Hsub].
      rewrite Hlen, Hsub.
      destruct rest as [| kv' rest]; simpl List.length; simpl Nat.ltb;
        intros [= <-]; simpl;
        rewrite lookup_set_member_other by discriminate;
        rewrite lookup_set_member_same; reflexivity.
Qed.

(** A table of six records that the client delivers in two pages, and
    a client whose mutating calls succeed. *)
Definition row (n : Z) : value := JObj [("n", JInt n)].

Definition record (n : Z) : AirtableRecord :=
  {| id := string_of_Z n; fields := row n |}.

Definition sixRecords : Feed :=
  {| pages := [[record 0; record 1; record 2]; [record 3; record 4; record 5]];
     failure := None |}.

Definition sampleClient : Client :=
  {| client_create := fun table records => Return records;
     client_update := fun table records => Return records;
     client_destroy := fun table id => Return (JObj [("id", id)]);
     client_select := fun table params => Return sixRecords |}.

Definition tasks : value := JObj [("table", JStr "tasks")].

Definition equalFilter (pairs : list (string * value)) : value :=
  JObj [("filters", JObj [("equal", JObj pairs)])].

Lemma search_equality_formula_witness :
  (search sampleClient tasks (equalFilter [("a", JInt 1)])
   = read sampleClient
       (JObj [("table", JStr "tasks"); ("filterByFormula", JStr "a='1'");
              ("pagination", JUndefined)])
   /\ prop (JObj [("table", JStr "tasks"); ("filterByFormula", JStr "a='1'");
                  ("pagination", JUndefined)]) "filterByFormula"
      = JStr "a='1'")
  /\ (search sampleClient tasks (equalFilter [("a", JInt 1); ("b", JInt 2)])
      = read sampleClient
          (JObj [("table", JStr "tasks");
                 ("filterByFormula", JStr "AND(a='1',b='2')");
                 ("pagination", JUndefined)])
      /\ prop (JObj [("table", JStr "tasks");
                     ("filterByFormula", JStr "AND(a='1',b='2')");
                     ("pagination", JUndefined)]) "filterByFormula"
         = JStr "AND(a='1',b='2')").
Proof.
  split.
  - exact (search_equality_formula sampleClient tasks
             (equalFilter [("a", JInt 1)]) _ eq_refl).
  - exact (search_equality_formula sampleClient tasks
             (equalFilter [("a", JInt 1); ("b", JInt 2)]) _ eq_refl).
Defined.

(** Without equality pairs, and without filters at all, the query gets
    no formula. *)
Example search_without_filter :
  searchQuery tasks (equalFilter [])
  = Return (JObj [("table", JStr "tasks"); ("pagination", JUndefined)])
  /\ searchQuery tasks (JObj [])
     = Return (JObj [("table", JStr "tasks"); ("pagination", JUndefined)]).
Proof. split; reflexivity. Qed.

(** Three pairs, one of them a string. *)
Example search_three_filters :
  searchQuery tasks
    (equalFilter [("a", JInt 1); ("b", JStr "x"); ("c", JBool true)])
  = Return (JObj [("table", JStr "tasks");
                  ("filterByFormula", JStr "AND(a='1',b='x',c='true')");
                  ("pagination", JUndefined)]).
Proof. reflexivity. Qed.

(** ** The window of [read] *)

(** The elements of a list at the positions [from], ..., [to - 1]. *)
Definition window {A} (from to : Z) (xs : list A) : list A :=
  firstn (Z.to_nat (to - from)) (skipn (Z.to_nat from) xs).

Lemma collected_pages {A} (pages : list (list A)) (acc : list A) :
  fold_left (fun records partialRecords => (records ++ partialRecords)%list)
            pages acc
  = (acc ++ List.concat pages)%list.
Proof.
  revert acc. induction pages as [| p pages IH]; intros acc; simpl.
  - now rewrite app_nil_r.
  - now rewrite IH, app_assoc.
Qed.

Lemma slice_window {A} (xs : list A) (from to : Z) :
  0 <= from -> 0 <= to ->
  slice xs (JInt from) (JInt to) = window from to xs.
Proof.
  intros Hfrom Hto. unfold slice, window, clamp_index, JInt, to_number.
  cbv beta iota.
  set (len := Z.of_nat (List.length xs)).
  assert (Hlen : 0 <= len) by (subst len; lia).
  destruct (from <? 0) eqn:E1; [apply Z.ltb_lt in E1; lia | ].
  destruct (to <? 0) eqn:E2; [apply Z.ltb_lt in E2; lia | ].
  destruct (Z.le_gt_cases len from) as [Hbig | Hsmall].
  - rewrite (Z.min_r from len) by lia.
    rewrite !(skipn_all2 xs) by (subst len; lia).
    now rewrite !firstn_nil.
  - rewrite (Z.min_l from len) by lia.
    destruct (Z.le_gt_cases to len) as [Hin | Hout].
    + now rewrite (Z.min_l to len) by lia.
    + rewrite (Z.min_r to len) by lia.
      rewrite !firstn_all2; [reflexivity | | ];
        rewrite length_skipn; subst len; lia.
Qed.

(** What [processRecords] computes for an integer bookmark [b] and a
    positive integer limit [l]. *)
Lemma processRecords_window (query : value) (records : list AirtableRecord)
      (l b : Z) :
  js_or (oget (prop query "pagination") "limit") (JInt 100) = JInt l ->
  0 < l ->
  parseInt (coalesce (oget (prop query "pagination") "bookmark") (JStr "1"))
  = Int b ->
  processRecords query records
  = JArr (window (l * Z.max b 1 - l) (l * Z.max b 1) (map fields records)).
Proof.
  intros Hlimit Hpos Hbookmark. unfold processRecords.
  rewrite Hlimit, Hbookmark. unfold js_le_num. simpl num_leb.
  assert (Hpage : (if b <=? 1 then JInt 1 else JNum (Int b))
                  = JInt (Z.max b 1)).
  { destruct (b <=? 1) eqn:E.
    - apply Z.leb_le in E. now rewrite Z.max_r by lia.
    - apply Z.leb_gt in E. now rewrite Z.max_l by lia. }
  rewrite Hpage. unfold js_sub, js_mul, JInt. simpl.
  fold (JInt (Z.max b 1 * l - l)). fold (JInt (l * Z.max b 1)).
  rewrite slice_window by nia.
  now replace (Z.max b 1 * l - l) with (l * Z.max b 1 - l) by ring.
Qed.

(** C6, amended.  When the selection delivers its pages, [read] returns
    the window of the collected rows over the positions
    [offset, limit * page), that is [offset, offset + limit): one page of
    [limit] rows, where [offset = limit * page - limit] and
    [page = max(bookmark, 1)].  The limit is a positive integer, 100 when
    the query gives none; the bookmark parses as an integer, 1 when the
    query gives none. *)
Theorem read_window (client : Client) (query : value) (c : console)
        (feed : Feed) (l b : Z) :
  nullish query = false ->
  client_select client (prop query "table") (selectParams query) = Return feed ->
  js_or (oget (prop query "pagination") "limit") (JInt 100) = JInt l ->
  0 < l ->
  parseInt (coalesce (oget (prop query "pagination") "bookmark") (JStr "1"))
  = Int b ->
  let rows := map fields (List.concat (pages feed)) in
  let page := Z.max b 1 in
  let offset := l * page - l in
  read client query c = (Return (JArr (window offset (l * page) rows)), c)
  /\ l * page = offset + l.
Proof.
  intros Hquery Hselect Hlimit Hpos Hbookmark. cbv zeta.
  split; [ | ring ].
  unfold read, try_io, io_bind, lift, ret, get.
  rewrite Hquery, Hselect, collected_pages. simpl app.
  now rewrite (processRecords_window query _ l b Hlimit Hpos Hbookmark).
Qed.

(** The second page of two rows out of six. *)
Definition secondPage : value :=
  JObj [("table", JStr "tasks");
        ("pagination", JObj [("bookmark", JStr "2"); ("limit", JInt 2)])].

Lemma read_window_witness :
  read sampleClient secondPage []
  = (Return (JArr (window 2 4 [row 0; row 1; row 2; row 3; row 4; row 5])), [])
  /\ 2 * 2 = 2 + 2.
Proof.
  apply (read_window sampleClient secondPage [] sixRecords 2 2);
    solve [reflexivity | lia].
Defined.

(** C6, as stated, fails on the second page: with a limit of 2 and the
    bookmark 2 the offset is 2 and [read] returns the two rows at the
    positions 2 and 3, while the positions [offset, offset + limit*page)
    hold the four rows from 2 to 5. *)
Lemma read_window_is_one_page :
  read sampleClient secondPage [] = (Return (JArr [row 2; row 3]), [])
  /\ window 2 (2 + 2 * 2) [row 0; row 1; row 2; row 3; row 4; row 5]
     = [row 2; row 3; row 4; row 5]
  /\ [row 2; row 3] <> [row 2; row 3; row 4; row 5].
Proof. repeat split; try reflexivity. discriminate. Qed.

(** Without pagination in the query the window is the first hundred
    rows. *)
Example read_defaults :
  read sampleClient tasks []
  = (Return (JArr (window 0 100 [row 0; row 1; row 2; row 3; row 4; row 5])), []).
Proof. reflexivity. Qed.

(** ** Failures of the client *)

(** Runs an adapter method down to the calls of the client. *)
Ltac run_io :=
  unfold read, create, update, delete, try_io, io_bind, lift, ret, throw,
    console_error, get.

Definition logged (c : console) (e : value) : console :=
  (c ++ [("Error writing to airtable", e)])%list.

(** C8.  When the client's call fails with an error [e], each of
    [create], [update] and [delete] writes the error to the console and
    then throws [e] itself to its caller. *)
Theorem mutations_log_and_rethrow (client : Client) (query e : value)
        (c : console) :
  nullish query = false ->
  (client_create client (prop query "table")
     (JArr [JObj [("fields", prop query "json")]]) = Throw e ->
   create client query c = (Throw e, logged c e))
  /\ (client_update client (prop query "table")
        (JArr [JObj [("id", prop query "id"); ("fields", prop query "json")]])
      = Throw e ->
      update client query c = (Throw e, logged c e))
  /\ (client_destroy client (prop query "table") (prop query "id") = Throw e ->
      delete client query c = (Throw e, logged c e)).
Proof.
  intros Hquery.
  repeat split; intros Hfail; run_io; rewrite Hquery, Hfail; reflexivity.
Qed.

(** A client that refuses every call. *)
Definition failingClient : Client :=
  {| client_create := fun table records => Throw (JStr "NOT_AUTHORIZED");
     client_update := fun table records => Throw (JStr "NOT_AUTHORIZED");
     client_destroy := fun table id => Throw (JStr "NOT_AUTHORIZED");
     client_select := fun table params => Throw (JStr "NOT_AUTHORIZED") |}.

Definition oneTask : value :=
  JObj [("table", JStr "tasks"); ("id", JStr "rec1");
        ("json", JObj [("done", JBool true)])].

Lemma mutations_log_and_rethrow_witness :
  create failingClient oneTask []
  = (Throw (JStr "NOT_AUTHORIZED"),
     [("Error writing to airtable", JStr "NOT_AUTHORIZED")])
  /\ update failingClient oneTask []
     = (Throw (JStr "NOT_AUTHORIZED"),
        [("Error writing to airtable", JStr "NOT_AUTHORIZED")])
  /\ delete failingClient oneTask []
     = (Throw (JStr "NOT_AUTHORIZED"),
        [("Error writing to airtable", JStr "NOT_AUTHORIZED")]).
Proof.
  destruct (mutations_log_and_rethrow failingClient oneTask
              (JStr "NOT_AUTHORIZED") [] eq_refl) as [Hc [Hu Hd]].
  split; [exact (Hc eq_refl) | split; [exact (Hu eq_refl) | exact (Hd eq_refl)]].
Defined.

(** A mutation that succeeds returns what the client returns and writes
    nothing. *)
Example create_succeeds :
  create sampleClient oneTask []
  = (Return (JArr [JObj [("fields", JObj [("done", JBool true)])]]), []).
Proof. reflexivity. Qed.

(** [read] never throws: whatever the client does, the caller gets an
    array. *)
Lemma read_returns (client : Client) (query : value) (c : console) :
  exists (rows : list value) (c' : console),
    read client query c = (Return (JArr rows), c').
Proof.
  run_io.
  destruct (nullish query); [do 2 eexists; reflexivity | ].
  destruct (client_select client _ _); do 2 eexists; reflexivity.
Qed.

(** C9.  When the request of a [read] throws an error [e], the caller
    receives the empty array [[]], not the error (which goes to the
    console). *)
Theorem read_failure_gives_empty (client : Client) (query e : value)
        (c : console) :
  nullish query = false ->
  client_select client (prop query "table") (selectParams query) = Throw e ->
  read client query c = (Return (JArr []), logged c e).
Proof.
  intros Hquery Hfail. run_io. rewrite Hquery, Hfail. reflexivity.
Qed.

Lemma read_failure_gives_empty_witness :
  read failingClient tasks []
  = (Return (JArr []), [("Error writing to airtable", JStr "NOT_AUTHORIZED")]).
Proof.
  apply (read_failure_gives_empty failingClient tasks (JStr "NOT_AUTHORIZED") []);
    reflexivity.
Defined.

(** A failure that the client reports to [done], after the first page
    here, is not thrown: [processRecords] takes no argument, and the
    caller gets the window of the rows collected so far. *)
Example read_ignores_done_error :
  read {| client_create := client_create sampleClient;
          client_update := client_update sampleClient;
          client_destroy := client_destroy sampleClient;
          client_select := fun table params =>
            Return {| pages := [[record 0; record 1; record 2]];
                      failure := Some (JStr "RATE_LIMIT") |} |}
       tasks []
  = (Return (JArr [row 0; row 1; row 2]), []).
Proof. reflexivity. Qed.

(** A [read] without a query fails on [query.table], inside the [try]:
    the caller gets the empty array as well. *)
Example read_without_query :
  read sampleClient JUndefined []
  = (Return (JArr []), [("Error writing to airtable", TypeError)]).
Proof. reflexivity. Qed.

End AirtableProps.

(* ================================================================== *)
(** * Properties of the grid's table store *)
(* ================================================================== *)

Module TableStoreProps.
Import JS JSFacts TableStore.

Section Guard.

Variable Fetch : Type.
Variable fetch_options : Fetch -> value.
Variable fetch_update : Fetch -> value -> Fetch.

#[local] Abbreviation Context := (TableStore.Context Fetch).
#[local] Abbreviation fetchTableId := (TableStore.fetchTableId Fetch fetch_options).
#[local] Abbreviation onFilter := (TableStore.onFilter Fetch fetch_options fetch_update).
#[local] Abbreviation onSort := (TableStore.onSort Fetch fetch_options fetch_update).
#[local] Abbreviation notifyFilter := (TableStore.notifyFilter Fetch fetch_options fetch_update).
#[local] Abbreviation notifySort := (TableStore.notifySort Fetch fetch_options fetch_update).
#[local] Abbreviation setFilter := (TableStore.setFilter Fetch fetch_options fetch_update).
#[local] Abbreviation setSort := (TableStore.setSort Fetch fetch_options fetch_update).

(** The datasource a subscription was installed for. *)
Definition installedFor (sub : Subscription) : value :=
  match sub with
  | OnFilter ds => ds
  | OnSort ds => ds
  end.

(** A subscription is stale for a fetch instance when the table of the
    datasource that installed it is not the table the instance is bound
    to. *)
Definition stale (current : option Fetch) (sub : Subscription) : Prop :=
  nullish (installedFor sub) = false
  /\ strict_eq (fetchTableId current) (prop (installedFor sub) "tableId")
     = false.

(** A handler whose guard finds another table returns at once. *)
Lemma stale_handlers_return (ds v : value) (ctx : Context) :
  nullish ds = false ->
  strict_eq (fetchTableId (fetch Fetch ctx)) (prop ds "tableId") = false ->
  onFilter ds v ctx = Return ctx /\ onSort ds v ctx = Return ctx.
Proof.
  intros Hds Hdiff. unfold TableStore.onFilter, TableStore.onSort, get.
  rewrite Hds. simpl bind. rewrite Hdiff. split; reflexivity.
Qed.

(** C7.  A filter or sort event on a subscription, installed by a
    datasource [ds].  If the table identifier the current fetch
    instance is bound to differs from the table identifier of [ds], the
    handler returns with every store as it was: the fetch instance is
    not touched.  The fetch instance changes only through its [update]
    method, and only when the two table identifiers are equal. *)
Theorem handlers_guard_fetch (ds v : value) (ctx : Context) :
  nullish ds = false ->
  (strict_eq (fetchTableId (fetch Fetch ctx)) (prop ds "tableId") = false ->
   onFilter ds v ctx = Return ctx /\ onSort ds v ctx = Return ctx)
  /\ (forall ctx' : Context,
        onFilter ds v ctx = Return ctx' \/ onSort ds v ctx = Return ctx' ->
        ctx' <> ctx ->
        fetchTableId (fetch Fetch ctx) = prop ds "tableId"
        /\ exists (f : Fetch) (arg : value),
             fetch Fetch ctx = Some f
             /\ ctx' = with_fetch Fetch ctx (Some (fetch_update f arg))).
Proof.
  intros Hds. split.
  - apply stale_handlers_return, Hds.
  - unfold TableStore.onFilter, TableStore.onSort, get.
    rewrite Hds. simpl bind.
    intros ctx' Hrun Hchanged.
    destruct (strict_eq _ _) eqn:Heq; simpl negb in Hrun; cbv iota in Hrun.
    + split; [apply strict_eq_eq, Heq | ].
      destruct (fetch Fetch ctx) as [f | ] eqn:Hfetch.
      * destruct Hrun as [Hrun | Hrun].
        -- injection Hrun as <-. do 2 eexists. split; reflexivity.
        -- destruct (if nullish v then _ else _) as [order | e];
             simpl in Hrun; [ | discriminate ].
           injection Hrun as <-. do 2 eexists. split; reflexivity.
      * destruct Hrun as [Hrun | Hrun]; discriminate.
    + destruct Hrun as [Hrun | Hrun]; injection Hrun as <-;
        contradiction Hchanged; reflexivity.
Qed.

(** An event on the filter store or the sort store reaches the handlers
    of all live subscriptions; when all of them are stale the event
    leaves every store but the one that was set as it was. *)
Lemma stale_notifyFilter (subs : list Subscription) (ctx : Context) :
  Forall (stale (fetch Fetch ctx)) subs ->
  notifyFilter subs ctx = Return ctx.
Proof.
  induction 1 as [| sub subs [Hds Hdiff] _ IH]; [reflexivity | ].
  destruct sub as [ds | ds]; simpl in *; [ | exact IH ].
  destruct (stale_handlers_return ds (filter Fetch ctx) ctx Hds Hdiff)
    as [-> _].
  exact IH.
Qed.

Lemma stale_notifySort (subs : list Subscription) (ctx : Context) :
  Forall (stale (fetch Fetch ctx)) subs ->
  notifySort subs ctx = Return ctx.
Proof.
  induction 1 as [| sub subs [Hds Hdiff] _ IH]; [reflexivity | ].
  destruct sub as [ds | ds]; simpl in *; [exact IH | ].
  destruct (stale_handlers_return ds (sort Fetch ctx) ctx Hds Hdiff)
    as [_ ->].
  exact IH.
Qed.

Lemma stale_events_keep_fetch (v : value) (ctx : Context) :
  Forall (stale (fetch Fetch ctx)) (unsubscribers Fetch ctx) ->
  (exists ctx', setFilter v ctx = Return ctx'
                /\ fetch Fetch ctx' = fetch Fetch ctx)
  /\ (exists ctx', setSort v ctx = Return ctx'
                   /\ fetch Fetch ctx' = fetch Fetch ctx).
Proof.
  intros Hstale. unfold TableStore.setFilter, TableStore.setSort. split.
  - rewrite stale_notifyFilter by exact Hstale. eexists. split; reflexivity.
  - rewrite stale_notifySort by exact Hstale. eexists. split; reflexivity.
Qed.

(** ** The subscriptions that are live *)

(** All stores but the fetch store. *)
Definition frame (ctx : Context) : value * value * value * list Subscription :=
  (datasource Fetch ctx, filter Fetch ctx, sort Fetch ctx,
   unsubscribers Fetch ctx).

Lemma onFilter_frame (ds v : value) (ctx ctx' : Context) :
  onFilter ds v ctx = Return ctx' -> frame ctx' = frame ctx.
Proof.
  unfold TableStore.onFilter, get.
  destruct (nullish ds); simpl; [discriminate | ].
  destruct (negb _); [intros [= <-]; reflexivity | ].
  destruct (fetch Fetch ctx); [intros [= <-]; reflexivity | discriminate].
Qed.

Lemma onSort_frame (ds v : value) (ctx ctx' : Context) :
  onSort ds v ctx = Return ctx' -> frame ctx' = frame ctx.
Proof.
  unfold TableStore.onSort, get.
  destruct (nullish ds); simpl; [discriminate | ].
  destruct (negb _); [intros [= <-]; reflexivity | ].
  destruct (fetch Fetch ctx); [ | discriminate ].
  destruct (nullish v); simpl; [discriminate | ].
  intros [= <-]. reflexivity.
Qed.

Lemma notifyFilter_frame (subs : list Subscription) (ctx ctx' : Context) :
  notifyFilter subs ctx = Return ctx' -> frame ctx' = frame ctx.
Proof.
  revert ctx. induction subs as [| [ds | ds] subs IH]; intros ctx; simpl.
  - intros [= <-]. reflexivity.
  - destruct (onFilter ds (filter Fetch ctx) ctx) as [ctx1 | e] eqn:H1; simpl;
      [ | discriminate ].
    intros H2. rewrite (IH _ H2). exact (onFilter_frame _ _ _ _ H1).
  - apply IH.
Qed.

Lemma notifySort_frame (subs : list Subscription) (ctx ctx' : Context) :
  notifySort subs ctx = Return ctx' -> frame ctx' = frame ctx.
Proof.
  revert ctx. induction subs as [| [ds | ds] subs IH]; intros ctx; simpl.
  - intros [= <-]. reflexivity.
  - apply IH.
  - destruct (onSort ds (sort Fetch ctx) ctx) as [ctx1 | e] eqn:H1; simpl;
      [ | discriminate ].
    intros H2. rewrite (IH _ H2). exact (onSort_frame _ _ _ _ H1).
Qed.

(** A datasource that [isDatasourceValid] accepts. *)
Definition valid (ds : value) : Prop := truthy (isDatasourceValid ds) = true.

Lemma valid_datasource (ds : value) :
  valid ds -> nullish ds = false /\ truthy (prop ds "tableId") = true.
Proof.
  unfold valid, isDatasourceValid. rewrite truthy_js_and.
  intros [Htype Hid]%andb_true_iff. simpl in Htype.
  destruct (nullish ds) eqn:Hnull.
  - rewrite (oget_nullish ds "type" Hnull) in Htype. discriminate.
  - unfold oget in Hid. rewrite Hnull in Hid. split; [reflexivity | exact Hid].
Qed.

(** Without a fetch instance a handler of a valid datasource returns at
    its guard: [undefined] is no table identifier. *)
Lemma handlers_without_fetch (ds v : value) (ctx : Context) :
  valid ds -> fetch Fetch ctx = None ->
  onFilter ds v ctx = Return ctx /\ onSort ds v ctx = Return ctx.
Proof.
  intros [Hds Hid]%valid_datasource Hnone.
  apply (stale_handlers_return ds v ctx Hds). rewrite Hnone. simpl.
  destruct (prop ds "tableId"); simpl in *; solve [reflexivity | discriminate].
Qed.

(** Every live subscription was installed by the datasource that is
    current, and that datasource is valid. *)
Definition current (ctx : Context) : Prop :=
  Forall (fun sub => installedFor sub = datasource Fetch ctx
                     /\ valid (installedFor sub))
         (unsubscribers Fetch ctx).





End Guard.

(** ** A grid that switches from one table to another *)

(** A fetch instance, for the examples: its options and the arguments
    of the [update] calls it received, latest first. *)
Record SampleFetch : Type := {
  options : value;
  updates : list value
}.

Definition sampleUpdate (f : SampleFetch) (arg : value) : SampleFetch :=
  {| options := options f; updates := arg :: updates f |}.

Definition tableDatasource (tableId : string) : value :=
  JObj [("type", JStr "table"); ("tableId", JStr tableId)].

Definition fetchOf (tableId : string) : SampleFetch :=
  {| options := JObj [("datasource", tableDatasource tableId)];
     updates := [] |}.

Definition sampleContext (tableId : string) (f : option SampleFetch)
  : Context SampleFetch :=
  {| datasource := tableDatasource tableId; fetch := f;
     filter := JArr []; sort := JNull; unsubscribers := [] |}.

Definition ageFilter : value := JArr [JObj [("field", JStr "age")]].

Lemma handlers_guard_fetch_witness :
  (strict_eq (fetchTableId SampleFetch options (Some (fetchOf "ta_orders")))
             (JStr "ta_users") = false ->
   onFilter SampleFetch options sampleUpdate (tableDatasource "ta_users")
            ageFilter (sampleContext "ta_orders" (Some (fetchOf "ta_orders")))
   = Return (sampleContext "ta_orders" (Some (fetchOf "ta_orders")))
   /\ onSort SampleFetch options sampleUpdate (tableDatasource "ta_users")
             ageFilter (sampleContext "ta_orders" (Some (fetchOf "ta_orders")))
      = Return (sampleContext "ta_orders" (Some (fetchOf "ta_orders"))))
  /\ (forall ctx' : Context SampleFetch,
        onFilter SampleFetch options sampleUpdate (tableDatasource "ta_users")
                 ageFilter
                 (sampleContext "ta_orders" (Some (fetchOf "ta_orders")))
        = Return ctx'
        \/ onSort SampleFetch options sampleUpdate
                  (tableDatasource "ta_users") ageFilter
                  (sampleContext "ta_orders" (Some (fetchOf "ta_orders")))
           = Return ctx' ->
        ctx' <> sampleContext "ta_orders" (Some (fetchOf "ta_orders")) ->
        fetchTableId SampleFetch options (Some (fetchOf "ta_orders"))
        = JStr "ta_users"
        /\ exists (f : SampleFetch) (arg : value),
             Some (fetchOf "ta_orders") = Some f
             /\ ctx' = with_fetch SampleFetch
                         (sampleContext "ta_orders" (Some (fetchOf "ta_orders")))
                         (Some (sampleUpdate f arg))).
Proof.
  exact (handlers_guard_fetch SampleFetch options sampleUpdate
           (tableDatasource "ta_users") ageFilter
           (sampleContext "ta_orders" (Some (fetchOf "ta_orders"))) eq_refl).
Defined.

(** A handler of the previous table leaves the fetch of the new table
    alone; the handler of the same table pushes the filter into it. *)
Example stale_filter_is_dropped :
  onFilter SampleFetch options sampleUpdate (tableDatasource "ta_users")
           ageFilter (sampleContext "ta_orders" (Some (fetchOf "ta_orders")))
  = Return (sampleContext "ta_orders" (Some (fetchOf "ta_orders"))).
Proof. reflexivity. Qed.

Example current_filter_is_pushed :
  onFilter SampleFetch options sampleUpdate (tableDatasource "ta_orders")
           ageFilter (sampleContext "ta_orders" (Some (fetchOf "ta_orders")))
  = Return (sampleContext "ta_orders"
              (Some {| options := JObj [("datasource", tableDatasource "ta_orders")];
                       updates := [JObj [("filter", ageFilter)]] |})).
Proof. reflexivity. Qed.

(** [initialise] on a valid datasource wipes filter and sort, installs
    the two subscriptions and pushes the wiped state into the fetch of
    that table. *)
Example initialise_resets :
  initialise SampleFetch options sampleUpdate
    {| datasource := tableDatasource "ta_orders";
       fetch := Some (fetchOf "ta_orders");
       filter := ageFilter; sort := JNull; unsubscribers := [] |}
  = Return
      {| datasource := tableDatasource "ta_orders";
         fetch :=
           Some {| options := JObj [("datasource", tableDatasource "ta_orders")];
                   updates :=
                     [JObj [("sortOrder", JStr "ascending");
                            ("sortColumn", JNull)];
                      JObj [("filter", JArr [])]] |};
         filter := JArr [];
         sort := JObj [("column", JNull); ("order", JStr "ascending")];
         unsubscribers :=
           [OnFilter (tableDatasource "ta_orders");
            OnSort (tableDatasource "ta_orders")] |}.
Proof. reflexivity. Qed.

End TableStoreProps.
(* ================================================================== *)
(** * Further facts about members *)
(* ================================================================== *)

Module MemberFacts.
Import JS.

(** Writing a member twice is writing the last value. *)
Lemma set_member_twice (ms : list (string * value)) (k : string)
      (v w : value) :
  set_member (set_member ms k v) k w = set_member ms k w.
Proof.
  induction ms as [| [k' v'] ms IH]; simpl.
  - now rewrite String.eqb_refl.
  - destruct (String.eqb k k') eqn:E; simpl.
    + now rewrite String.eqb_refl.
    + now rewrite E, IH.
Qed.

(** Writing the value a member has changes nothing. *)
Lemma set_member_same (ms : list (string * value)) (k : string) (v : value) :
  lookup k ms = Some v -> set_member ms k v = ms.
Proof.
  induction ms as [| [k' v'] ms IH]; simpl; [discriminate | ].
  destruct (String.eqb k k') eqn:E.
  - apply String.eqb_eq in E. subst k'. now intros [= ->].
  - intros H. now rewrite IH.
Qed.

Lemma lookup_remove_same (ms : list (string * value)) (k : string) :
  lookup k (remove_member k ms) = None.
Proof.
  induction ms as [| [k' v'] ms IH]; simpl; [reflexivity | ].
  destruct (String.eqb k k') eqn:E; simpl; [exact IH | now rewrite E].
Qed.

Lemma lookup_remove_other (ms : list (string * value)) (k k' : string) :
  k <> k' -> lookup k (remove_member k' ms) = lookup k ms.
Proof.
  intros Hne. induction ms as [| [k0 v0] ms IH]; simpl; [reflexivity | ].
  destruct (String.eqb k' k0) eqn:E; simpl.
  - apply String.eqb_eq in E. subst k0.
    apply String.eqb_neq in Hne. now rewrite Hne.
  - now rewrite IH.
Qed.

Lemma prop_set_same (ms : list (string * value)) (k : string) (v : value) :
  prop (JObj (set_member ms k v)) k = v.
Proof. simpl. now rewrite AirtableProps.lookup_set_member_same. Qed.

Lemma prop_set_other (ms : list (string * value)) (k k' : string) (v : value) :
  k <> k' -> prop (JObj (set_member ms k' v)) k = prop (JObj ms) k.
Proof. intros Hne. simpl. now rewrite AirtableProps.lookup_set_member_other. Qed.

End MemberFacts.

(* ================================================================== *)
(** * Definitions of queries and their enrichment *)
(* ================================================================== *)

Module DefinitionProps.
Import JS JSFacts MemberFacts QueryFetch.

(** The test [ds && ds.source && ds.source === "MONGODB"]. *)
Definition isMongo (ds : value) : bool :=
  truthy (js_and (js_and ds (prop ds "source"))
                 (JBool (strict_eq (prop ds "source") (JStr "MONGODB")))).

Lemma isMongo_source (ds : value) :
  isMongo ds = true <-> prop ds "source" = JStr "MONGODB".
Proof.
  unfold isMongo. rewrite !truthy_js_and. split.
  - intros [_ H]%andb_true_iff. apply strict_eq_eq, H.
  - intros H. rewrite H.
    destruct ds as [| |b|n|s|ms|xs]; simpl in H; try discriminate;
      try reflexivity.
    destruct s; [simpl in H; discriminate | reflexivity].
Qed.

(** What the enrichment makes of the fields of a definition: [None]
    when the write fails. *)
Definition enrichedFields (limit fields : value) : option value :=
  match fields with
  | JObj fs => Some (JObj (set_member fs "pagination" (mongoPagination limit)))
  | JArr xs => Some (JArr xs)
  | _ =>
      if truthy fields then None
      else Some (JObj [("pagination", mongoPagination limit)])
  end.

(** [enrichPagination] on an object, by cases. *)
Lemma enrichPagination_cases (getDatasources : outcome value) (o : Options)
      (ms : list (string * value)) :
  enrichPagination getDatasources o (JObj ms)
  = if truthy (js_and (datasource o) (paginate o))
    then
      bind getDatasources (fun datasources =>
      bind (find datasources (JObj ms)) (fun ds =>
      if isMongo ds
      then
        match enrichedFields (limit o) (prop (JObj ms) "fields") with
        | Some fields => Return (JObj (set_member ms "fields" fields))
        | None => Throw TypeError
        end
      else Return (JObj ms)))
    else Return (JObj ms).
Proof.
  unfold enrichPagination.
  destruct (truthy (js_and _ _)); [ | reflexivity ].
  destruct getDatasources as [datasources | e]; [ | reflexivity ].
  cbn [bind].
  destruct (find datasources (JObj ms)) as [ds | e]; [ | reflexivity ].
  cbn [bind]. fold (isMongo ds).
  destruct (isMongo ds); [ | reflexivity ].
  unfold get at 1. cbn [nullish bind].
  remember (prop (JObj ms) "fields") as F eqn:HF.
  destruct (truthy F) eqn:Hf; cbn [negb bind].
  - unfold get at 1. cbn [nullish bind]. rewrite <- HF.
    destruct F as [| |b|n|s|fs|xs]; try discriminate Hf;
      unfold get, enrichedFields; cbn [nullish bind]; rewrite ?Hf;
      try reflexivity.
    + destruct (truthy (prop (JStr s) "pagination")); reflexivity.
    + destruct (truthy (prop (JObj fs) "pagination")); cbn [negb bind set];
        rewrite ?set_member_twice; reflexivity.
    + destruct (truthy (prop (JArr xs) "pagination")); reflexivity.
  - cbn [set bind]. unfold get at 1. cbn [nullish bind].
    rewrite prop_set_same. unfold get.
    cbn [nullish bind prop lookup truthy negb set set_member].
    rewrite String.eqb_refl, set_member_twice.
    unfold enrichedFields.
    destruct F as [| |b|n|s|fs|xs]; try discriminate Hf; rewrite ?Hf;
      reflexivity.
Qed.

(** [find] looks at the definition through its [datasourceId] only. *)
Lemma findDatasource_ext (datasources : list value) (d d' : value) :
  nullish d = nullish d' ->
  prop d "datasourceId" = prop d' "datasourceId" ->
  findDatasource datasources d = findDatasource datasources d'.
Proof.
  intros Hn Hp. induction datasources as [| ds rest IH]; simpl;
    [reflexivity | ].
  destruct (get ds "_id") as [id | e]; simpl; [ | reflexivity ].
  unfold get. rewrite <- Hn, <- Hp.
  destruct (nullish d); simpl; [reflexivity | ]. now rewrite IH.
Qed.

(** What [find] returns is [undefined] or an element whose [_id] is the
    [datasourceId] of the definition. *)
Lemma findDatasource_found (datasources : list value) (d ds : value) :
  findDatasource datasources d = Return ds ->
  ds = JUndefined
  \/ (In ds datasources /\ prop ds "_id" = prop d "datasourceId").
Proof.
  induction datasources as [| x rest IH]; simpl.
  - intros [= <-]. now left.
  - unfold get. destruct (nullish x); simpl; [discriminate | ].
    destruct (nullish d); simpl; [discriminate | ].
    destruct (strict_eq _ _) eqn:Heq.
    + intros [= <-]. right. split; [now left | apply strict_eq_eq, Heq].
    + intros H. destruct (IH H) as [-> | [Hin Hid]]; [now left | ].
      right. split; [now right | exact Hid].
Qed.

(** Fields that the enrichment can write into: none yet, or an object. *)
Definition plainFields (fields : value) : Prop :=
  truthy fields = false \/ exists fs, fields = JObj fs.

Lemma enrichedFields_plain (limit fields : value) :
  plainFields fields ->
  exists fs, enrichedFields limit fields
             = Some (JObj (set_member fs "pagination" (mongoPagination limit))).
Proof.
  intros [Hf | [fs ->]].
  - exists []. unfold enrichedFields.
    destruct fields; try discriminate Hf; rewrite ?Hf; reflexivity.
  - exists fs. reflexivity.
Qed.

(** X1.  Enrichment and negotiation compose: when pagination is asked
    for and the definition belongs to a MongoDB datasource, the
    enriched definition carries the descriptor
    [{ type: "page", location: "query", pageParam: { limit } }] and
    feature negotiation answers [supportsPagination: true] for it,
    whatever the limit is. *)
Theorem enrichment_supports_pagination
        (getDatasources : outcome value) (o : Options)
        (ms : list (string * value)) (datasources ds : value) :
  truthy (js_and (datasource o) (paginate o)) = true ->
  getDatasources = Return datasources ->
  find datasources (JObj ms) = Return ds ->
  prop ds "source" = JStr "MONGODB" ->
  plainFields (prop (JObj ms) "fields") ->
  exists definition' : value,
    enrichPagination getDatasources o (JObj ms) = Return definition'
    /\ oget (oget definition' "fields") "pagination"
       = mongoPagination (limit o)
    /\ determineFeatureFlags definition'
       = JObj [("supportsPagination", JBool true)].
Proof.
  intros Hasked -> Hfind Hsource Hplain.
  rewrite enrichPagination_cases, Hasked. cbn [bind]. rewrite Hfind.
  cbn [bind]. apply isMongo_source in Hsource. rewrite Hsource.
  destruct (enrichedFields_plain (limit o) _ Hplain) as [fs ->].
  eexists. split; [reflexivity | ].
  assert (Hpag : oget (oget (JObj (set_member ms "fields"
                   (JObj (set_member fs "pagination"
                            (mongoPagination (limit o)))))) "fields")
                   "pagination" = mongoPagination (limit o)).
  { unfold oget. cbn [nullish]. rewrite prop_set_same. cbn [nullish].
    apply prop_set_same. }
  split; [exact Hpag | ].
  unfold determineFeatureFlags. rewrite Hpag. reflexivity.
Qed.

(** X2.  Enrichment does nothing it was not asked for.  Without a
    datasource or without [paginate] the definition is returned as it
    is and the datasources are not even listed; and whenever the
    definition comes back changed, pagination was asked for and the
    listing holds a MongoDB datasource whose [_id] is the
    [datasourceId] of the definition. *)
Theorem enrichment_only_when_asked
        (getDatasources : outcome value) (o : Options) (d : value) :
  (truthy (js_and (datasource o) (paginate o)) = false ->
   enrichPagination getDatasources o d = Return d)
  /\ (forall d' : value,
        enrichPagination getDatasources o d = Return d' ->
        d' <> d ->
        truthy (js_and (datasource o) (paginate o)) = true
        /\ exists (datasources : list value) (ds : value),
             getDatasources = Return (JArr datasources)
             /\ In ds datasources
             /\ prop ds "source" = JStr "MONGODB"
             /\ prop ds "_id" = prop d "datasourceId").
Proof.
  unfold enrichPagination. split.
  - intros ->. reflexivity.
  - intros d' Hrun Hchanged.
    destruct (truthy (js_and (datasource o) (paginate o)));
      [ | injection Hrun as <-; contradiction Hchanged; reflexivity ].
    split; [reflexivity | ].
    destruct getDatasources as [datasources | e]; [ | discriminate ].
    cbn [bind] in Hrun.
    destruct datasources as [| |b|n|s|dms|dss]; try discriminate Hrun.
    cbn [find] in Hrun.
    destruct (findDatasource dss d) as [ds | e] eqn:Hfind; [ | discriminate ].
    cbn [bind] in Hrun. fold (isMongo ds) in Hrun.
    destruct (isMongo ds) eqn:Hmongo;
      [ | injection Hrun as <-; contradiction Hchanged; reflexivity ].
    apply isMongo_source in Hmongo.
    destruct (findDatasource_found dss d ds Hfind) as [-> | [Hin Hid]];
      [discriminate Hmongo | ].
    exists dss, ds. repeat split; assumption.
Qed.

(** The result of [enrichPagination] on an object: the object itself,
    or the object with enriched fields. *)
Lemma enrichPagination_result (getDatasources : outcome value) (o : Options)
      (ms : list (string * value)) (d' : value) :
  enrichPagination getDatasources o (JObj ms) = Return d' ->
  d' = JObj ms
  \/ exists (datasources ds fields : value),
       getDatasources = Return datasources
       /\ find datasources (JObj ms) = Return ds
       /\ isMongo ds = true
       /\ truthy (js_and (datasource o) (paginate o)) = true
       /\ enrichedFields (limit o) (prop (JObj ms) "fields") = Some fields
       /\ d' = JObj (set_member ms "fields" fields).
Proof.
  rewrite enrichPagination_cases.
  destruct (truthy (js_and _ _)) eqn:Hasked; [ | intros [= <-]; now left ].
  destruct getDatasources as [datasources | e]; [ | discriminate ].
  cbn [bind].
  destruct (find datasources (JObj ms)) as [ds | e] eqn:Hfind;
    [ | discriminate ].
  cbn [bind]. destruct (isMongo ds) eqn:Hmongo; [ | intros [= <-]; now left ].
  destruct (enrichedFields _ _) as [fields | ] eqn:Hfields; [ | discriminate ].
  intros [= <-]. right. exists datasources, ds, fields. repeat split; assumption.
Qed.

(** X3.  Enrichment only adds: every member of the definition other
    than [fields], and every member of its fields other than
    [pagination], is after the call what it was before. *)
Theorem enrichment_is_additive
        (getDatasources : outcome value) (o : Options)
        (ms : list (string * value)) (d' : value) :
  enrichPagination getDatasources o (JObj ms) = Return d' ->
  (forall k : string, k <> "fields" -> prop d' k = prop (JObj ms) k)
  /\ (forall k : string, k <> "pagination" ->
        lookup k (entries (prop d' "fields"))
        = lookup k (entries (prop (JObj ms) "fields"))).
Proof.
  intros Hrun.
  destruct (enrichPagination_result _ _ _ _ Hrun)
    as [-> | (datasources & ds & fields & _ & _ & _ & _ & Hfields & ->)];
    [split; reflexivity | ].
  split.
  - intros k Hk. now apply prop_set_other.
  - intros k Hk. rewrite prop_set_same. revert Hfields. unfold enrichedFields.
    destruct (prop (JObj ms) "fields") as [| |b|n|s|fs|xs] eqn:HF;
      try (destruct (truthy _) eqn:Ht; [discriminate | ]);
      intros [= <-]; cbn [entries];
      try (simpl; apply String.eqb_neq in Hk; now rewrite Hk).
    + simpl in Ht. apply negb_false_iff, String.eqb_eq in Ht. subst s.
      simpl. apply String.eqb_neq in Hk. now rewrite Hk.
    + now apply AirtableProps.lookup_set_member_other.
    + reflexivity.
Qed.

Lemma enrichedFields_again (limit fields fields' : value) :
  enrichedFields limit fields = Some fields' ->
  enrichedFields limit fields' = Some fields'.
Proof.
  destruct fields as [| |b|n|s|fs|xs]; cbn [enrichedFields];
    try (destruct (truthy _); [discriminate | ]);
    intros [= <-]; try reflexivity.
  cbn [enrichedFields]. now rewrite set_member_twice.
Qed.

(** X4.  Enrichment is idempotent: enriching an enriched definition
    returns it as it is. *)
Theorem enrichment_is_idempotent
        (getDatasources : outcome value) (o : Options)
        (ms : list (string * value)) (d' : value) :
  enrichPagination getDatasources o (JObj ms) = Return d' ->
  enrichPagination getDatasources o d' = Return d'.
Proof.
  intros Hrun.
  destruct (enrichPagination_result _ _ _ _ Hrun)
    as [-> | (datasources & ds & fields & -> & Hfind & Hmongo & Hasked
              & Hfields & ->)];
    [exact Hrun | ].
  rewrite enrichPagination_cases, Hasked. cbn [bind].
  assert (Hsame : find datasources (JObj (set_member ms "fields" fields))
                  = find datasources (JObj ms)).
  { destruct datasources; try reflexivity. cbn [find].
    apply findDatasource_ext; [reflexivity | ].
    now apply prop_set_other. }
  rewrite Hsame, Hfind. cbn [bind]. rewrite Hmongo, prop_set_same.
  rewrite (enrichedFields_again _ _ _ Hfields), set_member_twice.
  reflexivity.
Qed.

(** ** Fetching a definition *)

(** Feature negotiation reads the fields of a definition only. *)
Lemma flags_depend_on_fields (d d' : value) :
  oget d "fields" = oget d' "fields" ->
  determineFeatureFlags d = determineFeatureFlags d'.
Proof. unfold determineFeatureFlags. intros ->. reflexivity. Qed.

(** X5.  A definition that the service returns without fields gets the
    fields of the datasource, so that, where the enrichment does not
    change it, feature negotiation answers for the definition what it
    answers for the datasource; a definition that comes with fields is
    returned as it is.  The datasource is left as it was. *)
Theorem definition_falls_back_on_datasource_fields
        (fetchQueryDefinition : value -> outcome value)
        (getDatasources : outcome value) (o : Options)
        (dsource : value) (ms : list (string * value)) :
  truthy (oget dsource "_id") = true ->
  fetchQueryDefinition (prop dsource "_id") = Return (JObj ms) ->
  let definition :=
    if truthy (prop (JObj ms) "fields") then JObj ms
    else JObj (set_member ms "fields" (prop dsource "fields")) in
  enrichPagination getDatasources o definition = Return definition ->
  getDefinition fetchQueryDefinition getDatasources o dsource
  = (definition, dsource)
  /\ (truthy (prop (JObj ms) "fields") = false ->
      determineFeatureFlags definition = determineFeatureFlags dsource).
Proof.
  intros Hid Hfetch definition Hplain. subst definition.
  assert (Hds : nullish dsource = false).
  { destruct dsource; try reflexivity; discriminate Hid. }
  unfold getDefinition. rewrite Hid, Hfetch. cbn [negb bind].
  unfold get at 1. cbn [nullish bind].
  destruct (truthy (prop (JObj ms) "fields")) eqn:Hfields; cbn [negb bind set].
  - rewrite Hplain. cbn [bind andb]. split; [reflexivity | discriminate].
  - rewrite Hplain. cbn [bind andb]. rewrite prop_set_same. split.
    + f_equal.
      destruct (truthy (prop dsource "fields")) eqn:Hshared; [ | reflexivity ].
      destruct dsource as [| |b|n|s|dms|xs]; try reflexivity.
      cbn [with_member]. f_equal. cbn [prop] in Hshared |- *.
      destruct (lookup "fields" dms) as [v | ] eqn:Hl;
        [ | discriminate Hshared ].
      now apply set_member_same.
    + intros _. apply flags_depend_on_fields.
      unfold oget. rewrite Hds. cbn [nullish]. apply prop_set_same.
Qed.

(** X6.  The fields that a definition without fields is given are the
    object of the datasource, not a copy: for a MongoDB datasource with
    pagination asked for, the descriptor that the enrichment writes is
    afterwards in the returned definition and in the fields of the
    datasource alike. *)
Theorem enrichment_reaches_datasource_fields
        (fetchQueryDefinition : value -> outcome value)
        (getDatasources : outcome value) (o : Options)
        (dms ms fs : list (string * value)) (datasources ds : value) :
  truthy (prop (JObj dms) "_id") = true ->
  fetchQueryDefinition (prop (JObj dms) "_id") = Return (JObj ms) ->
  truthy (prop (JObj ms) "fields") = false ->
  prop (JObj dms) "fields" = JObj fs ->
  truthy (js_and (datasource o) (paginate o)) = true ->
  getDatasources = Return datasources ->
  find datasources (JObj ms) = Return ds ->
  prop ds "source" = JStr "MONGODB" ->
  let fields' := JObj (set_member fs "pagination" (mongoPagination (limit o))) in
  getDefinition fetchQueryDefinition getDatasources o (JObj dms)
  = (JObj (set_member ms "fields" fields'),
     JObj (set_member dms "fields" fields')).
Proof.
  intros Hid Hfetch Hnone Hfields Hasked -> Hfind Hsource fields'.
  unfold getDefinition, oget. cbn [nullish]. rewrite Hid, Hfetch.
  cbn [negb bind]. unfold get at 1. cbn [nullish bind]. rewrite Hnone.
  cbn [negb bind set]. rewrite enrichPagination_cases, Hasked. cbn [bind].
  assert (Hsame : find datasources
                    (JObj (set_member ms "fields" (prop (JObj dms) "fields")))
                  = find datasources (JObj ms)).
  { destruct datasources; try reflexivity. cbn [find].
    apply findDatasource_ext; [reflexivity | ].
    now apply prop_set_other. }
  rewrite Hsame, Hfind. cbn [bind].
  apply isMongo_source in Hsource. rewrite Hsource, prop_set_same, Hfields.
  cbn [enrichedFields bind truthy andb with_member].
  rewrite set_member_twice, prop_set_same. reflexivity.
Qed.

(** X7.  [getDefinition] answers every failure with [null] and leaves
    the datasource alone: a datasource without [_id] (the service is
    not asked), a definition service that fails or returns nothing,
    and, when pagination is asked for, a listing of the datasources
    that fails, although the definition itself was fetched. *)
Theorem definition_failures_give_null
        (fetchQueryDefinition : value -> outcome value)
        (getDatasources : outcome value) (o : Options) (dsource : value) :
  (truthy (oget dsource "_id") = false ->
   getDefinition fetchQueryDefinition getDatasources o dsource
   = (JNull, dsource))
  /\ (forall e : value,
        fetchQueryDefinition (prop dsource "_id") = Throw e ->
        getDefinition fetchQueryDefinition getDatasources o dsource
        = (JNull, dsource))
  /\ (forall definition : value,
        fetchQueryDefinition (prop dsource "_id") = Return definition ->
        nullish definition = true ->
        getDefinition fetchQueryDefinition getDatasources o dsource
        = (JNull, dsource))
  /\ (forall (ms : list (string * value)) (e : value),
        fetchQueryDefinition (prop dsource "_id") = Return (JObj ms) ->
        truthy (js_and (datasource o) (paginate o)) = true ->
        getDatasources = Throw e ->
        getDefinition fetchQueryDefinition getDatasources o dsource
        = (JNull, dsource)).
Proof.
  unfold getDefinition. repeat split.
  - intros ->. reflexivity.
  - intros e ->. destruct (truthy _); reflexivity.
  - intros definition -> Hnull.
    destruct (truthy (oget dsource "_id")); [ | reflexivity ].
    cbn [negb bind]. unfold get at 1. rewrite Hnull. reflexivity.
  - intros ms e -> Hasked ->. destruct (truthy (oget dsource "_id"));
      [ | reflexivity ].
    cbn [negb bind]. unfold get at 1. cbn [nullish bind].
    destruct (truthy (prop (JObj ms) "fields")); cbn [negb bind set];
      rewrite enrichPagination_cases, Hasked; reflexivity.
Qed.

(** ** A MongoDB query and a REST query *)

Definition listing : value :=
  JArr [JObj [("_id", JStr "ds_rest"); ("source", JStr "REST")];
        JObj [("_id", JStr "ds_mongo"); ("source", JStr "MONGODB")]].

Definition mongoQuery : list (string * value) :=
  [("datasourceId", JStr "ds_mongo"); ("name", JStr "orders")].

Definition restQuery : list (string * value) :=
  [("datasourceId", JStr "ds_rest"); ("name", JStr "orders")].

Definition queryDatasource : list (string * value) :=
  [("_id", JStr "query_9"); ("fields", JObj [("bodyType", JStr "json")])].

Definition pagingOptions : Options :=
  {| datasource := JObj queryDatasource; limit := JInt 25;
     paginate := JBool true |}.

Definition enrichedOrders : value :=
  JObj [("datasourceId", JStr "ds_mongo"); ("name", JStr "orders");
        ("fields", JObj [("pagination", mongoPagination (JInt 25))])].

Lemma enrichment_supports_pagination_witness :
  exists definition' : value,
    enrichPagination (Return listing) pagingOptions (JObj mongoQuery)
    = Return definition'
    /\ oget (oget definition' "fields") "pagination"
       = mongoPagination (JInt 25)
    /\ determineFeatureFlags definition'
       = JObj [("supportsPagination", JBool true)].
Proof.
  apply (enrichment_supports_pagination (Return listing) pagingOptions
           mongoQuery listing
           (JObj [("_id", JStr "ds_mongo"); ("source", JStr "MONGODB")]));
    try reflexivity.
  left. reflexivity.
Defined.

Lemma enrichment_is_additive_witness :
  (forall k : string, k <> "fields" ->
     prop enrichedOrders k = prop (JObj mongoQuery) k)
  /\ (forall k : string, k <> "pagination" ->
        lookup k (entries (prop enrichedOrders "fields"))
        = lookup k (entries (prop (JObj mongoQuery) "fields"))).
Proof.
  exact (enrichment_is_additive (Return listing) pagingOptions mongoQuery
           enrichedOrders eq_refl).
Defined.

Lemma enrichment_is_idempotent_witness :
  enrichPagination (Return listing) pagingOptions enrichedOrders
  = Return enrichedOrders.
Proof.
  exact (enrichment_is_idempotent (Return listing) pagingOptions mongoQuery
           enrichedOrders eq_refl).
Defined.

Lemma definition_falls_back_on_datasource_fields_witness :
  getDefinition (fun _ => Return (JObj restQuery)) (Return listing)
                pagingOptions (JObj queryDatasource)
  = (JObj [("datasourceId", JStr "ds_rest"); ("name", JStr "orders");
           ("fields", JObj [("bodyType", JStr "json")])],
     JObj queryDatasource)
  /\ (truthy (prop (JObj restQuery) "fields") = false ->
      determineFeatureFlags
        (JObj [("datasourceId", JStr "ds_rest"); ("name", JStr "orders");
               ("fields", JObj [("bodyType", JStr "json")])])
      = determineFeatureFlags (JObj queryDatasource)).
Proof.
  exact (definition_falls_back_on_datasource_fields
           (fun _ => Return (JObj restQuery)) (Return listing) pagingOptions
           (JObj queryDatasource) restQuery eq_refl eq_refl eq_refl).
Defined.

Lemma enrichment_reaches_datasource_fields_witness :
  getDefinition (fun _ => Return (JObj mongoQuery)) (Return listing)
                pagingOptions (JObj queryDatasource)
  = (JObj [("datasourceId", JStr "ds_mongo"); ("name", JStr "orders");
           ("fields", JObj [("bodyType", JStr "json");
                            ("pagination", mongoPagination (JInt 25))])],
     JObj [("_id", JStr "query_9");
           ("fields", JObj [("bodyType", JStr "json");
                            ("pagination", mongoPagination (JInt 25))])]).
Proof.
  exact (enrichment_reaches_datasource_fields
           (fun _ => Return (JObj mongoQuery)) (Return listing) pagingOptions
           queryDatasource mongoQuery [("bodyType", JStr "json")] listing
           (JObj [("_id", JStr "ds_mongo"); ("source", JStr "MONGODB")])
           eq_refl eq_refl eq_refl eq_refl eq_refl eq_refl eq_refl eq_refl).
Defined.

End DefinitionProps.

(* ================================================================== *)
(** * Numbers as strings and back *)
(* ================================================================== *)

Module NumberFacts.
Import JS.









End NumberFacts.

(* ================================================================== *)
(** * More on [getData] *)
(* ================================================================== *)

Module GetDataProps.
Import JS JSFacts MemberFacts NumberFacts QueryFetch.

(** ** Requests without pagination *)

(** X8.  When pagination is not enabled or not supported, the request
    carries no pagination member, and a successful call returns the
    rows with a [null] cursor and [hasNextPage] false, whatever the
    response says about pagination. *)
Theorem getData_without_pagination
        (api : value -> outcome value) (o : Options) (f : Features)
        (s : Store) (payload res : value) :
  truthy (js_and (paginate o) (supportsPagination f)) = false ->
  queryPayload o f s = Return payload ->
  api payload = Return res ->
  nullish res = false ->
  lookup "pagination" (entries payload) = None
  /\ getData api o f s
     = Return (JObj [("rows", js_or (prop res "data") (JArr []));
                     ("info",
                      JObj (remove_member "pagination"
                              (remove_member "data" (entries res))));
                     ("cursor", JNull);
                     ("hasNextPage", JBool false)]).
Proof.
  intros Hoff Hpayload Hres Hnn. split.
  - revert Hpayload. unfold queryPayload.
    destruct (iterate _) as [params | e]; simpl; [ | discriminate ].
    destruct (applyDefaults _ params) as [parameters | e]; simpl;
      [ | discriminate ].
    rewrite Hoff. intros [= <-]. reflexivity.
  - unfold getData. rewrite Hpayload. cbn [bind]. rewrite Hres. cbn [bind].
    unfold pageResult. rewrite Hnn, Hoff. reflexivity.
Qed.

(** ** The parameters of the request *)

(** The key under which a parameter is looked up and written. *)
Definition keyOf (param : value) : string := to_string (prop param "name").

Lemma applyDefault_object (ms : list (string * value)) (param : value) :
  nullish param = false ->
  applyDefault (JObj ms) param
  = Return (JObj (if truthy (prop (JObj ms) (keyOf param)) then ms
                  else set_member ms (keyOf param) (prop param "default"))).
Proof.
  intros Hp. unfold applyDefault, get, keyOf. rewrite Hp. cbn [bind].
  destruct (truthy _); reflexivity.
Qed.

(** One step of the resolution of a parameter: a truthy value stays,
    any other value gives way to the default. *)
Definition orDefault (v dflt : value) : value := if truthy v then v else dflt.

(** The defaults that the parameter list declares for a key, in order. *)
Fixpoint defaultsFor (k : string) (params : list value) : list value :=
  match params with
  | [] => []
  | param :: rest =>
      if String.eqb (keyOf param) k
      then prop param "default" :: defaultsFor k rest
      else defaultsFor k rest
  end.

Lemma applyDefaults_object (params : list value) :
  Forall (fun param => nullish param = false) params ->
  forall ms : list (string * value),
  exists ms' : list (string * value),
    applyDefaults (JObj ms) params = Return (JObj ms')
    /\ forall k : string,
         prop (JObj ms') k
         = fold_left orDefault (defaultsFor k params) (prop (JObj ms) k).
Proof.
  induction 1 as [| param rest Hp _ IH]; intros ms.
  - exists ms. split; reflexivity.
  - cbn [applyDefaults]. rewrite (applyDefault_object ms param Hp).
    cbn [bind].
    destruct (IH (if truthy (prop (JObj ms) (keyOf param)) then ms
                  else set_member ms (keyOf param) (prop param "default")))
      as [ms' [Hrun Hres]].
    exists ms'. split; [exact Hrun | ].
    intros k. rewrite Hres. cbn [defaultsFor].
    destruct (String.eqb (keyOf param) k) eqn:Hk.
    + apply String.eqb_eq in Hk. subst k. cbn [fold_left]. f_equal.
      unfold orDefault.
      destruct (truthy (prop (JObj ms) (keyOf param))); [reflexivity | ].
      apply prop_set_same.
    + f_equal. destruct (truthy (prop (JObj ms) (keyOf param)));
        [reflexivity | ].
      apply prop_set_other. intros ->. rewrite String.eqb_refl in Hk.
      discriminate.
Qed.

(** A datasource that [getData] can build a request for: an object
    with a list of parameters, none of them [null] or [undefined], and
    with static parameters that are an object, if there are any. *)
Definition wellFormed (dsource : value) : Prop :=
  nullish dsource = false
  /\ (exists params : list value,
        prop dsource "parameters" = JArr params
        /\ Forall (fun param => nullish param = false) params)
  /\ (truthy (prop dsource "queryParams") = false
      \/ exists qs, prop dsource "queryParams" = JObj qs).

(** The static parameters the loop starts from. *)
Definition supplied (dsource : value) : value :=
  js_or (prop dsource "queryParams") (JObj []).

Definition declaredParameters (dsource : value) : list value :=
  match prop dsource "parameters" with
  | JArr params => params
  | _ => []
  end.

Lemma queryPayload_well_formed (o : Options) (f : Features) (s : Store) :
  wellFormed (datasource o) ->
  exists (payload : value) (ms : list (string * value)),
    queryPayload o f s = Return payload
    /\ prop payload "queryId" = prop (datasource o) "_id"
    /\ prop payload "parameters" = JObj ms
    /\ forall k : string,
         prop (JObj ms) k
         = fold_left orDefault
             (defaultsFor k (declaredParameters (datasource o)))
             (prop (supplied (datasource o)) k).
Proof.
  intros (Hds & (params & Hparams & Hnn) & Hqs).
  unfold queryPayload, supplied, declaredParameters, oget, cloneDeep.
  rewrite Hds, Hparams. cbn [js_or truthy iterate bind].
  assert (Hobj : exists qs, js_or (prop (datasource o) "queryParams") (JObj [])
                            = JObj qs).
  { unfold js_or. destruct Hqs as [-> | [qs ->]]; eexists; reflexivity. }
  destruct Hobj as [qs ->].
  destruct (applyDefaults_object params Hnn qs) as [ms' [-> Hres]].
  cbn [bind].
  destruct (truthy (js_and (paginate o) (supportsPagination f)));
    eexists; exists ms'; (split; [reflexivity | ]);
    (split; [reflexivity | ]); (split; [reflexivity | exact Hres]).
Qed.


(** X10.  A well-formed datasource never makes [getData] throw: whatever
    the backend does, the caller gets a page result. *)
Theorem getData_returns_for_well_formed
        (api : value -> outcome value) (o : Options) (f : Features)
        (s : Store) :
  wellFormed (datasource o) ->
  exists result : value, getData api o f s = Return result.
Proof.
  intros Hwf.
  destruct (queryPayload_well_formed o f s Hwf) as (payload & ms & Hp & _).
  unfold getData. rewrite Hp. cbn [bind].
  destruct (api payload) as [res | e]; cbn [bind try_catch];
    [ | eexists; reflexivity ].
  destruct (pageResult o f s payload res); eexists; reflexivity.
Qed.

(** A datasource whose caller supplies a status and a page of 0, and
    which declares defaults for status, page and order. *)
Definition ticketsDatasource : value :=
  JObj [("_id", JStr "query_7");
        ("queryParams", JObj [("status", JStr "closed"); ("page", JInt 0)]);
        ("parameters",
         JArr [JObj [("name", JStr "status"); ("default", JStr "open")];
               JObj [("name", JStr "page"); ("default", JInt 1)];
               JObj [("name", JStr "order"); ("default", JStr "asc")]])].

Definition ticketsOptions : Options :=
  {| datasource := ticketsDatasource; limit := JInt 50; paginate := JBool false |}.

Definition noFeatures : Features := {| supportsPagination := JBool false |}.

Definition emptyStore : Store := {| cursor := JNull; definition := JNull |}.

Lemma tickets_well_formed : wellFormed ticketsDatasource.
Proof.
  split; [reflexivity | split].
  - eexists. split; [reflexivity | ]. repeat constructor.
  - right. eexists. reflexivity.
Defined.


(** The supplied status stays, the supplied page 0 gives way to the
    default, the order that was not supplied gets its default. *)
Example tickets_parameters :
  queryPayload ticketsOptions noFeatures emptyStore
  = Return (JObj [("queryId", JStr "query_7");
                  ("parameters",
                   JObj [("status", JStr "closed"); ("page", JInt 1);
                         ("order", JStr "asc")])]).
Proof. reflexivity. Qed.

Lemma getData_returns_for_well_formed_witness :
  exists result : value,
    getData (fun _ => Throw (JStr "503")) ticketsOptions noFeatures emptyStore
    = Return result.
Proof.
  exact (getData_returns_for_well_formed (fun _ => Throw (JStr "503"))
           ticketsOptions noFeatures emptyStore tickets_well_formed).
Defined.

Definition ticketsPayload : value :=
  JObj [("queryId", JStr "query_7");
        ("parameters",
         JObj [("status", JStr "closed"); ("page", JInt 1);
               ("order", JStr "asc")])].

Definition ticketsResponse : value :=
  JObj [("data", JArr [JObj [("id", JInt 1)]]);
        ("pagination", JObj [("cursor", JStr "next")]);
        ("total", JInt 1)].

Lemma getData_without_pagination_witness :
  lookup "pagination" (entries ticketsPayload) = None
  /\ getData (fun _ => Return ticketsResponse) ticketsOptions noFeatures
             emptyStore
     = Return (JObj [("rows", JArr [JObj [("id", JInt 1)]]);
                     ("info", JObj [("total", JInt 1)]);
                     ("cursor", JNull);
                     ("hasNextPage", JBool false)]).
Proof.
  exact (getData_without_pagination (fun _ => Return ticketsResponse)
           ticketsOptions noFeatures emptyStore ticketsPayload ticketsResponse
           eq_refl eq_refl eq_refl eq_refl).
Defined.

(** ** Paging through a query *)



(** ** What a successful call keeps of the response *)

(** X12.  The [info] of a page result is the response without its [data]
    and its [pagination]: these two members are not in it, and every
    other member of the response is, with its value.  The rows are the
    [data], or an empty list when there is none. *)
Theorem info_is_the_rest_of_the_response
        (api : value -> outcome value) (o : Options) (f : Features)
        (s : Store) (payload res : value) :
  queryPayload o f s = Return payload ->
  api payload = Return res ->
  nullish res = false ->
  exists result : value,
    getData api o f s = Return result
    /\ prop result "rows" = js_or (prop res "data") (JArr [])
    /\ forall k : string,
         lookup k (entries (prop result "info"))
         = if (String.eqb k "data" || String.eqb k "pagination")%bool
           then None
           else lookup k (entries res).
Proof.
  intros Hpayload Hres Hnn.
  unfold getData. rewrite Hpayload. cbn [bind]. rewrite Hres. cbn [bind].
  unfold pageResult. rewrite Hnn.
  destruct (if truthy (js_and (paginate o) (supportsPagination f))
            then _ else _) as [nextCursor hasNextPage].
  eexists. split; [reflexivity | ]. split; [reflexivity | ].
  intros k. cbn [prop lookup String.eqb Ascii.eqb Bool.eqb entries].
  destruct (String.eqb k "pagination") eqn:Hp.
  - apply String.eqb_eq in Hp. subst k. rewrite lookup_remove_same.
    now rewrite orb_true_r.
  - rewrite orb_false_r.
    rewrite lookup_remove_other by (intros ->; discriminate Hp).
    destruct (String.eqb k "data") eqn:Hd.
    + apply String.eqb_eq in Hd. subst k. apply lookup_remove_same.
    + apply lookup_remove_other. intros ->. discriminate Hd.
Qed.

Lemma info_is_the_rest_of_the_response_witness :
  exists result : value,
    getData (fun _ => Return ticketsResponse) ticketsOptions noFeatures
            emptyStore
    = Return result
    /\ prop result "rows" = JArr [JObj [("id", JInt 1)]]
    /\ forall k : string,
         lookup k (entries (prop result "info"))
         = if (String.eqb k "data" || String.eqb k "pagination")%bool
           then None
           else lookup k (entries ticketsResponse).
Proof.
  exact (info_is_the_rest_of_the_response (fun _ => Return ticketsResponse)
           ticketsOptions noFeatures emptyStore ticketsPayload ticketsResponse
           eq_refl eq_refl eq_refl).
Defined.

(** X13.  A response that cannot be taken apart, [null] or [undefined],
    is handled like a failed request: [getData] returns the empty page. *)
Theorem missing_response_gives_empty_page
        (api : value -> outcome value) (o : Options) (f : Features)
        (s : Store) (payload res : value) :
  queryPayload o f s = Return payload ->
  api payload = Return res ->
  nullish res = true ->
  getData api o f s = Return emptyPage.
Proof.
  intros Hpayload Hres Hnull.
  unfold getData. rewrite Hpayload. cbn [bind]. rewrite Hres. cbn [bind].
  unfold pageResult. rewrite Hnull. reflexivity.
Qed.

Lemma missing_response_gives_empty_page_witness :
  getData (fun _ => Return JUndefined) ticketsOptions noFeatures emptyStore
  = Return (JObj [("rows", JArr []); ("hasNextPage", JBool false)]).
Proof.
  exact (missing_response_gives_empty_page (fun _ => Return JUndefined)
           ticketsOptions noFeatures emptyStore ticketsPayload JUndefined
           eq_refl eq_refl eq_refl).
Defined.

End GetDataProps.

(* ================================================================== *)
(** * More on the Airtable integration *)
(* ================================================================== *)

Module AirtableMore.
Import JS JSFacts MemberFacts NumberFacts Airtable.
Import AirtableProps.

(** ** Pages of a table *)

(** The rows a call of [read] returned. *)
Definition rowsOf (r : outcome value * console) : list value :=
  match fst r with
  | Return (JArr xs) => xs
  | _ => []
  end.

(** A query with the bookmark [p] and the limit [l]. *)
Definition pageQuery (ms : list (string * value)) (p l : Z) : value :=
  JObj (set_member ms "pagination"
          (JObj [("bookmark", JInt p); ("limit", JInt l)])).







(** X17.  A bookmark that does not start with a number, such as
    ["next"], selects no page: [read] returns no rows at all, however
    many the selection delivered. *)
Theorem unreadable_bookmark_gives_no_rows
        (client : Client) (query : value) (c : console) (feed : Feed) :
  nullish query = false ->
  client_select client (prop query "table") (selectParams query)
  = Return feed ->
  parseInt (coalesce (oget (prop query "pagination") "bookmark") (JStr "1"))
  = NaN ->
  read client query c = (Return (JArr []), c).
Proof.
  intros Hquery Hselect Hnan.
  unfold read, try_io, io_bind, lift, ret, get.
  rewrite Hquery, Hselect. unfold processRecords. rewrite Hnan.
  unfold js_le_num, js_sub, js_mul. cbn [to_number num_leb num_binop].
  destruct (to_number (js_or _ _)); reflexivity.
Qed.

Definition tasksQuery : list (string * value) := [("table", JStr "tasks")].


(** Three pages of two rows are the six rows. *)
Example three_pages_of_two :
  List.concat
    (map (fun p => rowsOf (read sampleClient
                             (pageQuery tasksQuery (Z.of_nat p) 2) []))
         (seq 1 3))
  = [row 0; row 1; row 2; row 3; row 4; row 5].
Proof. reflexivity. Qed.


Lemma unreadable_bookmark_gives_no_rows_witness :
  read sampleClient
       (JObj [("table", JStr "tasks");
              ("pagination", JObj [("bookmark", JStr "next")])]) []
  = (Return (JArr []), []).
Proof.
  exact (unreadable_bookmark_gives_no_rows sampleClient
           (JObj [("table", JStr "tasks");
                  ("pagination", JObj [("bookmark", JStr "next")])])
           [] sixRecords eq_refl eq_refl eq_refl).
Defined.

(** X14.  [read] never throws.  Whatever the client does, and for every
    query, a missing one included, the caller gets an array; the
    console gets nothing, or the one line of the error that was
    caught, in which case the array is empty. *)
Theorem read_always_returns_rows
        (client : Client) (query : value) (c : console) :
  exists (rows : list value) (c' : console),
    read client query c = (Return (JArr rows), c')
    /\ (c' = c \/ exists e : value, c' = logged c e /\ rows = []).
Proof.
  run_io.
  destruct (nullish query);
    [do 2 eexists; split; [reflexivity | right; eexists; split; reflexivity] | ].
  destruct (client_select client _ _);
    do 2 eexists; (split; [reflexivity | ]);
    [left; reflexivity | right; eexists; split; reflexivity].
Qed.

(** ** Searching *)

(** The query of a search is an object that carries the pagination of
    the search parameters. *)
Lemma searchQuery_pagination (originalQuery params q : value) :
  searchQuery originalQuery params = Return q ->
  nullish q = false /\ prop q "pagination" = prop params "pagination".
Proof.
  unfold searchQuery.
  destruct (normaliseOrder _) as [sortOrder | e]; cbn [bind];
    [ | discriminate ].
  destruct (get params "filters") as [filters | e]; cbn [bind];
    [ | discriminate ].
  intros [= <-]. split; [reflexivity | apply prop_set_same].
Qed.

(** X18.  [search] returns the page that the search parameters ask for:
    the window of [limit] rows at page [max(bookmark, 1)], with the
    bookmark and the limit of [params.pagination].  A pagination that
    the original query carries plays no part. *)
Theorem search_returns_the_requested_page
        (client : Client) (originalQuery params q : value) (c : console)
        (feed : Feed) (l b : Z) :
  searchQuery originalQuery params = Return q ->
  client_select client (prop q "table") (selectParams q) = Return feed ->
  js_or (oget (prop params "pagination") "limit") (JInt 100) = JInt l ->
  0 < l ->
  parseInt (coalesce (oget (prop params "pagination") "bookmark") (JStr "1"))
  = Int b ->
  search client originalQuery params c
  = (Return (JArr (window (l * Z.max b 1 - l) (l * Z.max b 1)
                     (map fields (List.concat (pages feed))))), c).
Proof.
  intros Hq Hselect Hlimit Hl Hbookmark.
  destruct (searchQuery_pagination _ _ _ Hq) as [Hnn Hpag].
  unfold search, io_bind, lift. rewrite Hq.
  unfold read, try_io, io_bind, lift, ret, get.
  rewrite Hnn, Hselect, collected_pages. cbn [app].
  rewrite (processRecords_window q _ l b); [reflexivity | | exact Hl | ];
    rewrite Hpag; assumption.
Qed.

Lemma search_returns_the_requested_page_witness :
  search sampleClient
         (JObj [("table", JStr "tasks");
                ("pagination", JObj [("bookmark", JInt 1); ("limit", JInt 6)])])
         (JObj [("pagination",
                 JObj [("bookmark", JStr "3"); ("limit", JInt 2)])]) []
  = (Return (JArr (window (2 * Z.max 3 1 - 2) (2 * Z.max 3 1)
                     (map fields (List.concat (pages sixRecords))))), []).
Proof.
  apply (search_returns_the_requested_page sampleClient
           (JObj [("table", JStr "tasks");
                  ("pagination",
                   JObj [("bookmark", JInt 1); ("limit", JInt 6)])])
           (JObj [("pagination",
                   JObj [("bookmark", JStr "3"); ("limit", JInt 2)])])
           (JObj [("table", JStr "tasks");
                  ("pagination",
                   JObj [("bookmark", JStr "3"); ("limit", JInt 2)])])
           [] sixRecords 2 3);
    reflexivity.
Defined.

Example search_third_page :
  search sampleClient
         (JObj [("table", JStr "tasks");
                ("pagination", JObj [("bookmark", JInt 1); ("limit", JInt 6)])])
         (JObj [("pagination",
                 JObj [("bookmark", JStr "3"); ("limit", JInt 2)])]) []
  = (Return (JArr [row 4; row 5]), []).
Proof. reflexivity. Qed.

(** The order and the column of the sort that a search asks for. *)
Definition sortOrderOf (params : value) : value :=
  oget (oget (oget params "pagination") "sort") "order".
Definition sortColumnOf (params : value) : value :=
  oget (oget (oget params "pagination") "sort") "column".

(** The direction for an order: lower case, without the first
    "ending". *)
Definition direction (order : string) : string :=
  replace "ending" "" (toLowerCase order).

(** X19.  The sort of a search.  With an order that is a string and
    gives a non-empty direction, and with a truthy column, the query
    sorts by exactly one directive [{ field: column, direction }]; an
    order that is missing or that gives the empty direction (as
    "ending" does), or a column that is missing, leaves the sort of
    the original query as it is; an order that is neither a string nor
    missing makes [search] throw a [TypeError]. *)
Theorem search_sort_directive (originalQuery params : value) :
  (forall (order : string) (q : value),
     sortOrderOf params = JStr order ->
     searchQuery originalQuery params = Return q ->
     if (negb (String.eqb (direction order) "")
         && truthy (sortColumnOf params))%bool
     then prop q "sort"
          = JArr [JObj [("field", sortColumnOf params);
                        ("direction", JStr (direction order))]]
     else lookup "sort" (entries q) = lookup "sort" (entries originalQuery))
  /\ (forall q : value,
        nullish (sortOrderOf params) = true ->
        searchQuery originalQuery params = Return q ->
        lookup "sort" (entries q) = lookup "sort" (entries originalQuery))
  /\ (nullish (sortOrderOf params) = false ->
      (forall order : string, sortOrderOf params <> JStr order) ->
      searchQuery originalQuery params = Throw TypeError).
Proof.
  unfold sortOrderOf, sortColumnOf, searchQuery.
  set (order := oget (oget (oget params "pagination") "sort") "order").
  set (column := oget (oget (oget params "pagination") "sort") "column").
  assert (Hkeep : forall (base q : value) (formula : string) (wrap : bool),
            lookup "sort" (entries base) = lookup "sort" (entries originalQuery) ->
            Return (JObj (set_member
                            (entries (if wrap
                                      then JObj (set_member (entries base)
                                                   "filterByFormula"
                                                   (JStr formula))
                                      else base))
                            "pagination" (prop params "pagination")))
            = Return q ->
            lookup "sort" (entries q) = lookup "sort" (entries originalQuery)).
  { intros base q formula wrap Hbase [= <-]. cbn [entries].
    rewrite lookup_set_member_other by discriminate.
    destruct wrap; [ | exact Hbase ].
    cbn [entries]. rewrite lookup_set_member_other by discriminate.
    exact Hbase. }
  repeat split.
  - intros s q Horder. rewrite Horder. cbn [normaliseOrder bind].
    fold (direction s). unfold get.
    destruct (nullish params); cbn [bind]; [discriminate | ].
    rewrite truthy_js_and. cbn [truthy].
    destruct (negb (String.eqb (direction s) "") && truthy column)%bool.
    + intros [= <-]. cbn [prop].
      rewrite lookup_set_member_other by discriminate.
      destruct (0 <? _)%nat; cbn [entries];
        rewrite ?lookup_set_member_other by discriminate;
        rewrite lookup_set_member_same; reflexivity.
    + match goal with
      | |- Return (JObj (set_member (entries (if ?w then _ else _)) _ _)) = _ -> _ =>
          apply (Hkeep originalQuery q _ w)
      end. reflexivity.
  - intros q Hnull.
    assert (Hno : normaliseOrder order = Return JUndefined)
      by (destruct order; try discriminate Hnull; reflexivity).
    rewrite Hno. cbn [bind]. unfold get.
    destruct (nullish params); cbn [bind]; [discriminate | ].
    cbn [js_and truthy].
    match goal with
    | |- Return (JObj (set_member (entries (if ?w then _ else _)) _ _)) = _ -> _ =>
        apply (Hkeep originalQuery q _ w)
    end. reflexivity.
  - intros Hnn Hnostr.
    destruct order as [| |b|n|s|ms|xs]; try discriminate Hnn; try reflexivity.
    contradiction (Hnostr s). reflexivity.
Qed.

(** The orders of the grid. *)
Example search_sort_descending :
  direction "Descending" = "desc" /\ direction "Ascending" = "asc"
  /\ direction "descending" = "desc" /\ direction "ASCENDING" = "asc".
Proof. repeat split; reflexivity. Qed.

Example search_sorted_query :
  searchQuery (JObj [("table", JStr "tasks"); ("sort", JArr [])])
    (JObj [("pagination",
            JObj [("sort", JObj [("order", JStr "Descending");
                                 ("column", JStr "age")])])])
  = Return (JObj [("table", JStr "tasks");
                  ("sort", JArr [JObj [("field", JStr "age");
                                       ("direction", JStr "desc")]]);
                  ("pagination",
                   JObj [("sort", JObj [("order", JStr "Descending");
                                        ("column", JStr "age")])])]).
Proof. reflexivity. Qed.

(** ** Testing the connection *)

(** The request that probes the connection, and the error message that
    counts as an answer of the application. *)
Definition probe (now : Z) : value :=
  JObj [("path", JStr ("/" ++ string_of_Z now))].

Definition notFound (base : value) (now : Z) : value :=
  JStr ("Could not find table " ++ string_of_Z now
        ++ " in application " ++ to_string base).

(** X20.  [testConnection] reports a connection when the probe succeeds
    and when it fails with exactly the message that the probed table
    does not exist in the application; any other failure is reported
    as [{ connected: false, error }] with the message of the failure.
    The test itself throws in one case only: when the client throws
    [null] or [undefined], which have no message. *)
Theorem testConnection_reports
        (makeRequest : value -> outcome value) (base : value) (now : Z) :
  (forall r : value,
     makeRequest (probe now) = Return r ->
     testConnection makeRequest base now = Return connected)
  /\ (forall e : value,
        makeRequest (probe now) = Throw e ->
        nullish e = false ->
        testConnection makeRequest base now
        = Return (if strict_eq (prop e "message") (notFound base now)
                  then connected
                  else JObj [("connected", JBool false);
                             ("error", prop e "message")]))
  /\ (forall e : value,
        makeRequest (probe now) = Throw e ->
        nullish e = true ->
        testConnection makeRequest base now = Throw TypeError).
Proof.
  unfold testConnection, probe, notFound. cbn [to_string JInt string_of_num].
  repeat split.
  - intros r ->. reflexivity.
  - intros e -> Hnn. cbn [bind try_catch]. unfold get. rewrite Hnn.
    cbn [bind]. destruct (strict_eq _ _); reflexivity.
  - intros e -> Hnull. cbn [bind try_catch]. unfold get. rewrite Hnull.
    reflexivity.
Qed.

(** A base with valid credentials answers the probe with "not found";
    a wrong key is reported with its message. *)
Example connection_with_valid_key :
  testConnection
    (fun _ => Throw (JObj [("message",
       JStr "Could not find table 1700000000000 in application appX")]))
    (JStr "appX") 1700000000000
  = Return (JObj [("connected", JBool true)]).
Proof. reflexivity. Qed.

Example connection_with_wrong_key :
  testConnection
    (fun _ => Throw (JObj [("message", JStr "AUTHENTICATION_REQUIRED")]))
    (JStr "appX") 1700000000000
  = Return (JObj [("connected", JBool false);
                  ("error", JStr "AUTHENTICATION_REQUIRED")]).
Proof. reflexivity. Qed.

End AirtableMore.

(* ================================================================== *)
(** * More on the grid's table store *)
(* ================================================================== *)

Module TableStoreMore.
Import JS JSFacts MemberFacts TableStore.
Import TableStoreProps.

Section Subscriptions.

Variable Fetch : Type.
Variable fetch_options : Fetch -> value.
Variable fetch_update : Fetch -> value -> Fetch.

#[local] Abbreviation Ctx := (TableStore.Context Fetch).
#[local] Abbreviation tableIdOf := (TableStore.fetchTableId Fetch fetch_options).
#[local] Abbreviation filterHandler :=
  (TableStore.onFilter Fetch fetch_options fetch_update).
#[local] Abbreviation sortHandler :=
  (TableStore.onSort Fetch fetch_options fetch_update).
#[local] Abbreviation change := (TableStore.step Fetch fetch_options fetch_update).

(** The subscriptions that a datasource installs. *)
Definition subscriptionsOf (ds : value) : list Subscription :=
  if truthy (isDatasourceValid ds) then [OnFilter ds; OnSort ds] else [].

(** The state that [initialise] wipes the sort to. *)
Definition defaultSort : value :=
  JObj [("column", JNull); ("order", JStr "ascending")].

(** What a fetch instance receives when a valid datasource arrives: the
    wiped filter if it is bound to the table of the datasource, and
    then the default sort if, after that update, it still is; nothing
    otherwise. *)
Definition afterReset (ds : value) (current : option Fetch) : option Fetch :=
  match current with
  | Some f =>
      if strict_eq (tableIdOf (Some f)) (prop ds "tableId")
      then
        let f1 := fetch_update f (JObj [("filter", JArr [])]) in
        if strict_eq (tableIdOf (Some f1)) (prop ds "tableId")
        then Some (fetch_update f1
                     (JObj [("sortOrder", JStr "ascending");
                            ("sortColumn", JNull)]))
        else Some f1
      else
        Some f
  | None => None
  end.

(** With a valid datasource and no fetch instance the guard of a
    handler finds [undefined], which is no table identifier. *)
Lemma guard_without_fetch (ds : value) :
  truthy (isDatasourceValid ds) = true ->
  strict_eq JUndefined (prop ds "tableId") = false.
Proof.
  intros Hvalid. destruct (valid_datasource ds Hvalid) as [_ Hid].
  destruct (prop ds "tableId"); try reflexivity; discriminate Hid.
Qed.

(** The subscriber of the datasource store, worked out. *)
Lemma onDatasource_result (v : value) (ctx : Ctx) :
  onDatasource Fetch fetch_options fetch_update v ctx
  = Return
      (if truthy (isDatasourceValid v)
       then {| datasource := datasource Fetch ctx;
               fetch := afterReset v (fetch Fetch ctx);
               filter := JArr [];
               sort := defaultSort;
               unsubscribers := [OnFilter v; OnSort v] |}
       else {| datasource := datasource Fetch ctx;
               fetch := fetch Fetch ctx;
               filter := filter Fetch ctx;
               sort := sort Fetch ctx;
               unsubscribers := [] |}).
Proof.
  unfold onDatasource.
  destruct (truthy (isDatasourceValid v)) eqn:Hvalid; [ | reflexivity ].
  destruct (valid_datasource v Hvalid) as [Hnn _].
  pose proof (guard_without_fetch v Hvalid) as Hnone.
  cbn [negb]. unfold setFilter, setSort. cbn [unsubscribers notifyFilter
    notifySort bind]. unfold subscribe at 1.
  unfold TableStore.onFilter, get. rewrite Hnn.
  cbn [bind fetch filter sort datasource unsubscribers].
  unfold afterReset.
  destruct (fetch Fetch ctx) as [f | ].
  - destruct (strict_eq (tableIdOf (Some f)) (prop v "tableId")) eqn:H1;
      cbn [negb bind with_fetch fetch filter sort datasource unsubscribers app].
    + unfold subscribe, TableStore.onSort, get. rewrite Hnn.
      cbn [bind fetch filter sort datasource unsubscribers].
      destruct (strict_eq
                  (tableIdOf (Some (fetch_update f (JObj [("filter", JArr [])]))))
                  (prop v "tableId")) eqn:H2;
        reflexivity.
    + unfold subscribe, TableStore.onSort, get. rewrite Hnn.
      cbn [bind fetch filter sort datasource unsubscribers]. rewrite H1.
      reflexivity.
  - cbn [TableStore.fetchTableId]. rewrite Hnone.
    cbn [negb bind with_fetch fetch filter sort datasource unsubscribers app].
    unfold subscribe, TableStore.onSort, get. rewrite Hnn.
    cbn [bind fetch filter sort datasource unsubscribers TableStore.fetchTableId].
    rewrite Hnone. reflexivity.
Qed.

(** X21.  A new datasource.  A valid one wipes the filter to [[]] and
    the sort to [{ column: null, order: "ascending" }], and a fetch
    instance bound to its table receives the wiped filter and then, if
    it is still bound to that table, the default sort, while an
    instance of another table receives nothing.  A datasource that is
    not valid wipes nothing: filter, sort and fetch stay as they are.
    Neither case throws. *)
Theorem datasource_change_resets (v : value) (ctx : Ctx) :
  exists ctx' : Ctx,
    change (DatasourceSet Fetch v) ctx = Return ctx'
    /\ datasource Fetch ctx' = v
    /\ if truthy (isDatasourceValid v)
       then filter Fetch ctx' = JArr []
            /\ sort Fetch ctx' = defaultSort
            /\ fetch Fetch ctx' = afterReset v (fetch Fetch ctx)
       else filter Fetch ctx' = filter Fetch ctx
            /\ sort Fetch ctx' = sort Fetch ctx
            /\ fetch Fetch ctx' = fetch Fetch ctx.
Proof.
  cbn [TableStore.step]. rewrite onDatasource_result.
  eexists. split; [reflexivity | ].
  destruct (truthy (isDatasourceValid v)); repeat split; reflexivity.
Qed.

(** ** Sequences of events *)

Fixpoint run (events : list (Event Fetch)) (ctx : Ctx) : outcome Ctx :=
  match events with
  | [] => Return ctx
  | e :: rest => bind (change e ctx) (run rest)
  end.

Lemma step_subscriptions (e : Event Fetch) (ctx ctx' : Ctx) :
  unsubscribers Fetch ctx = subscriptionsOf (datasource Fetch ctx) ->
  change e ctx = Return ctx' ->
  unsubscribers Fetch ctx' = subscriptionsOf (datasource Fetch ctx').
Proof.
  intros Htidy. destruct e as [v | f | v | v]; cbn [TableStore.step].
  - rewrite onDatasource_result. intros [= <-]. unfold subscriptionsOf.
    destruct (truthy (isDatasourceValid v)) eqn:Hvalid;
      cbn [datasource unsubscribers]; rewrite Hvalid; reflexivity.
  - intros [= <-]. exact Htidy.
  - unfold setFilter. intros Hrun.
    apply (notifyFilter_frame Fetch fetch_options fetch_update) in Hrun.
    unfold frame in Hrun. cbn [datasource unsubscribers filter sort] in Hrun.
    injection Hrun as Hd _ _ Hu. now rewrite Hd, Hu.
  - unfold setSort. intros Hrun.
    apply (notifySort_frame Fetch fetch_options fetch_update) in Hrun.
    unfold frame in Hrun. cbn [datasource unsubscribers filter sort] in Hrun.
    injection Hrun as Hd _ _ Hu. now rewrite Hd, Hu.
Qed.

Lemma run_subscriptions (events : list (Event Fetch)) (ctx ctx' : Ctx) :
  unsubscribers Fetch ctx = subscriptionsOf (datasource Fetch ctx) ->
  run events ctx = Return ctx' ->
  unsubscribers Fetch ctx' = subscriptionsOf (datasource Fetch ctx').
Proof.
  revert ctx. induction events as [| e rest IH]; intros ctx Htidy; cbn [run].
  - intros [= <-]. exact Htidy.
  - destruct (change e ctx) as [ctx1 | err] eqn:Hstep; cbn [bind];
      [ | discriminate ].
    apply IH. exact (step_subscriptions e ctx ctx1 Htidy Hstep).
Qed.

(** X22.  Subscriptions do not pile up.  After [initialise] and any
    sequence of changes of the datasource, the fetch, the filter and
    the sort, the live subscriptions are exactly the filter handler and
    the sort handler of the current datasource when that is valid, and
    none when it is not: every earlier subscription is gone. *)
Theorem subscriptions_do_not_pile_up
        (events : list (Event Fetch)) (ctx ctx0 ctx' : Ctx) :
  initialise Fetch fetch_options fetch_update ctx = Return ctx0 ->
  run events ctx0 = Return ctx' ->
  unsubscribers Fetch ctx' = subscriptionsOf (datasource Fetch ctx').
Proof.
  unfold initialise. rewrite onDatasource_result. intros [= <-].
  apply run_subscriptions. unfold subscriptionsOf.
  destruct (truthy (isDatasourceValid (datasource Fetch ctx))) eqn:Hvalid;
    cbn [datasource unsubscribers]; rewrite Hvalid; reflexivity.
Qed.

(** ** Events that throw *)

Lemma filterHandler_returns (ds v : value) (ctx : Ctx) :
  truthy (isDatasourceValid ds) = true ->
  exists ctx' : Ctx, filterHandler ds v ctx = Return ctx'.
Proof.
  intros Hvalid. destruct (valid_datasource ds Hvalid) as [Hnn _].
  unfold TableStore.onFilter, get. rewrite Hnn. cbn [bind].
  destruct (fetch Fetch ctx) as [f | ].
  - destruct (negb _); eexists; reflexivity.
  - cbn [TableStore.fetchTableId]. rewrite (guard_without_fetch ds Hvalid).
    eexists. reflexivity.
Qed.

Lemma sortHandler_returns (ds v : value) (ctx : Ctx) :
  truthy (isDatasourceValid ds) = true ->
  nullish v = false ->
  exists ctx' : Ctx, sortHandler ds v ctx = Return ctx'.
Proof.
  intros Hvalid Hv. destruct (valid_datasource ds Hvalid) as [Hnn _].
  unfold TableStore.onSort, get. rewrite Hnn, Hv. cbn [bind].
  destruct (fetch Fetch ctx) as [f | ].
  - destruct (negb _); eexists; reflexivity.
  - cbn [TableStore.fetchTableId]. rewrite (guard_without_fetch ds Hvalid).
    eexists. reflexivity.
Qed.

Definition installedByValid (sub : Subscription) : Prop :=
  truthy (isDatasourceValid (installedFor sub)) = true.

Lemma notifyFilter_returns (subs : list Subscription) :
  Forall installedByValid subs ->
  forall ctx : Ctx,
  exists ctx' : Ctx,
    notifyFilter Fetch fetch_options fetch_update subs ctx = Return ctx'.
Proof.
  induction 1 as [| sub subs Hsub _ IH]; intros ctx; cbn [notifyFilter].
  - eexists. reflexivity.
  - destruct sub as [ds | ds]; [ | apply IH ].
    destruct (filterHandler_returns ds (filter Fetch ctx) ctx Hsub)
      as [ctx1 ->].
    cbn [bind]. apply IH.
Qed.

Lemma notifySort_returns (subs : list Subscription) :
  Forall installedByValid subs ->
  forall ctx : Ctx,
  nullish (sort Fetch ctx) = false ->
  exists ctx' : Ctx,
    notifySort Fetch fetch_options fetch_update subs ctx = Return ctx'.
Proof.
  induction 1 as [| sub subs Hsub _ IH]; intros ctx Hsort; cbn [notifySort].
  - eexists. reflexivity.
  - destruct sub as [ds | ds]; [apply IH, Hsort | ].
    destruct (sortHandler_returns ds (sort Fetch ctx) ctx Hsub Hsort)
      as [ctx1 Hrun].
    rewrite Hrun. cbn [bind]. apply IH.
    apply (onSort_frame Fetch fetch_options fetch_update) in Hrun.
    unfold frame in Hrun. injection Hrun as _ _ Hs _. now rewrite Hs.
Qed.

(** X23.  What can throw.  As long as the live subscriptions are those
    of valid datasources, setting the datasource, the fetch or the
    filter never throws, and setting the sort never throws unless the
    new sort is [null] or [undefined]. *)
Theorem events_do_not_throw (ctx : Ctx) :
  Forall installedByValid (unsubscribers Fetch ctx) ->
  forall e : Event Fetch,
    (forall v : value, e = SortSet Fetch v -> nullish v = false) ->
    exists ctx' : Ctx, change e ctx = Return ctx'.
Proof.
  intros Hsubs e Hsort. destruct e as [v | f | v | v]; cbn [TableStore.step].
  - rewrite onDatasource_result. eexists. reflexivity.
  - eexists. reflexivity.
  - unfold setFilter. apply notifyFilter_returns. exact Hsubs.
  - unfold setSort. apply notifySort_returns; [exact Hsubs | ].
    cbn [sort]. apply Hsort. reflexivity.
Qed.

(** A sort of [null] on a fetch of the current table does throw. *)
Lemma null_sort_throws (ds : value) (f : Fetch) (ctx : Ctx) :
  nullish ds = false ->
  fetch Fetch ctx = Some f ->
  strict_eq (tableIdOf (Some f)) (prop ds "tableId") = true ->
  sortHandler ds JNull ctx = Throw TypeError.
Proof.
  intros Hnn Hf Heq. unfold TableStore.onSort, get.
  rewrite Hnn, Hf. cbn [bind]. rewrite Heq. reflexivity.
Qed.




End Subscriptions.

(** ** A grid that follows its datasource *)

Definition ordersGrid : Context SampleFetch :=
  {| datasource := tableDatasource "ta_orders";
     fetch := Some (fetchOf "ta_orders");
     filter := ageFilter; sort := JNull; unsubscribers := [] |}.

(** The grid after [initialise]. *)
Definition ordersGridStarted : Context SampleFetch :=
  {| datasource := tableDatasource "ta_orders";
     fetch :=
       Some {| options := JObj [("datasource", tableDatasource "ta_orders")];
               updates :=
                 [JObj [("sortOrder", JStr "ascending"); ("sortColumn", JNull)];
                  JObj [("filter", JArr [])]] |};
     filter := JArr [];
     sort := JObj [("column", JNull); ("order", JStr "ascending")];
     unsubscribers :=
       [OnFilter (tableDatasource "ta_orders");
        OnSort (tableDatasource "ta_orders")] |}.

(** The datasource changes to the users table while the fetch store
    still holds the fetch of the orders table. *)
Definition toUsers : list (Event SampleFetch) :=
  [DatasourceSet SampleFetch (tableDatasource "ta_users")].

Definition usersGridStale : Context SampleFetch :=
  {| datasource := tableDatasource "ta_users";
     fetch := fetch SampleFetch ordersGridStarted;
     filter := JArr [];
     sort := JObj [("column", JNull); ("order", JStr "ascending")];
     unsubscribers :=
       [OnFilter (tableDatasource "ta_users");
        OnSort (tableDatasource "ta_users")] |}.

Example switch_to_users :
  run SampleFetch options sampleUpdate toUsers ordersGridStarted
  = Return usersGridStale.
Proof. reflexivity. Qed.

Lemma subscriptions_do_not_pile_up_witness :
  unsubscribers SampleFetch usersGridStale
  = subscriptionsOf (datasource SampleFetch usersGridStale).
Proof.
  exact (subscriptions_do_not_pile_up SampleFetch options sampleUpdate toUsers
           ordersGrid ordersGridStarted usersGridStale eq_refl eq_refl).
Defined.

Lemma events_do_not_throw_witness :
  exists ctx' : Context SampleFetch,
    step SampleFetch options sampleUpdate
         (SortSet SampleFetch (JObj [("column", JStr "age")])) usersGridStale
    = Return ctx'.
Proof.
  apply (events_do_not_throw SampleFetch options sampleUpdate usersGridStale).
  - repeat constructor.
  - intros v [= <-]. reflexivity.
Defined.

(** A filter set while the fetch is still the one of the orders table
    leaves that fetch alone. *)
Example stale_fetch_keeps_its_state :
  step SampleFetch options sampleUpdate (FilterSet SampleFetch ageFilter)
       usersGridStale
  = Return {| datasource := tableDatasource "ta_users";
              fetch := fetch SampleFetch ordersGridStarted;
              filter := ageFilter;
              sort := JObj [("column", JNull); ("order", JStr "ascending")];
              unsubscribers :=
                [OnFilter (tableDatasource "ta_users");
                 OnSort (tableDatasource "ta_users")] |}.
Proof. reflexivity. Qed.



(** ** The actions on rows *)

(** The search that [getRow] sends. *)
Definition rowSearch (tableId id : value) : value :=
  JObj [("tableId", tableId);
        ("limit", JInt 1);
        ("query", JObj [("equal", JObj [("_id", id)])]);
        ("paginate", JBool false)].

(** X25.  [addRow] and [updateRow] send the row under the table of the
    current datasource: whatever table identifier the row carried, the
    row that reaches the service has the one of the datasource, every
    other member of the row is sent as it is, and errors are asked to
    be suppressed. *)
Theorem saveRow_stamps_the_table
        (api : API) (current : value) (ms : list (string * value)) :
  exists sent : value,
    saveRow api current (JObj ms) = api_saveRow api sent (JBool true)
    /\ prop sent "tableId" = oget current "tableId"
    /\ (forall k : string, k <> "tableId" -> prop sent k = prop (JObj ms) k).
Proof.
  exists (JObj (set_member ms "tableId" (oget current "tableId"))).
  split; [reflexivity | ]. split; [apply prop_set_same | ].
  intros k Hk. now apply prop_set_other.
Qed.

(** X26.  Without a datasource, that is with [null] or [undefined] in the
    datasource store, [refreshDefinition], [deleteRows] and [getRow]
    throw a [TypeError] before they reach the service, whatever the
    service would answer, while [saveRow] still sends the row, under
    the table identifier [undefined]. *)
Theorem actions_without_a_datasource
        (api : API) (current arg : value) (ms : list (string * value)) :
  nullish current = true ->
  refreshDefinition api current = Throw TypeError
  /\ deleteRows api current arg = Throw TypeError
  /\ getRow api current arg = Throw TypeError
  /\ saveRow api current (JObj ms)
     = api_saveRow api (JObj (set_member ms "tableId" JUndefined)) (JBool true).
Proof.
  intros Hnull. unfold refreshDefinition, deleteRows, getRow, saveRow, get.
  rewrite Hnull, (oget_nullish current "tableId" Hnull).
  repeat split; reflexivity.
Qed.

(** X27.  [getRow] returns the first row of the answer to a search for
    one row with the given [_id], and [undefined] when the answer has
    no rows, has no [rows] member or is itself [null] or [undefined]:
    a missing answer does not make it throw. *)
Theorem getRow_returns_the_first_row
        (api : API) (current id res : value) :
  nullish current = false ->
  api_searchTable api (rowSearch (prop current "tableId") id) = Return res ->
  (forall (row : value) (others : list value),
     oget res "rows" = JArr (row :: others) ->
     getRow api current id = Return row)
  /\ (nullish res = true \/ nullish (oget res "rows") = true
      \/ oget res "rows" = JArr [] ->
      getRow api current id = Return JUndefined).
Proof.
  intros Hcur Hsearch. unfold getRow, get. rewrite Hcur. cbn [bind].
  fold (rowSearch (prop current "tableId") id). rewrite Hsearch. cbn [bind].
  split.
  - intros row others ->. reflexivity.
  - intros [Hnull | [Hnull | ->]].
    + now rewrite (oget_nullish res "rows" Hnull).
    + now rewrite (oget_nullish _ "0" Hnull).
    + reflexivity.
Qed.

(** A service that knows one row. *)
Definition rowService : API :=
  {| api_fetchTableDefinition := fun tableId => Return (JObj [("_id", tableId)]);
     api_saveTable := fun table => Return table;
     api_saveRow := fun row suppress => Return row;
     api_deleteRows := fun request => Return JNull;
     api_searchTable := fun request =>
       Return (JObj [("rows", JArr [JObj [("_id", JStr "ro_1")]])]) |}.

Lemma actions_without_a_datasource_witness :
  refreshDefinition rowService JNull = Throw TypeError
  /\ deleteRows rowService JNull (JArr []) = Throw TypeError
  /\ getRow rowService JNull (JArr []) = Throw TypeError
  /\ saveRow rowService JNull (JObj [("name", JStr "Ada")])
     = api_saveRow rowService
         (JObj (set_member [("name", JStr "Ada")] "tableId" JUndefined))
         (JBool true).
Proof.
  exact (actions_without_a_datasource rowService JNull (JArr [])
           [("name", JStr "Ada")] eq_refl).
Defined.

Lemma getRow_returns_the_first_row_witness :
  (forall (row : value) (others : list value),
     JArr [JObj [("_id", JStr "ro_1")]] = JArr (row :: others) ->
     getRow rowService (tableDatasource "ta_orders") (JStr "ro_1") = Return row)
  /\ (nullish (JObj [("rows", JArr [JObj [("_id", JStr "ro_1")]])]) = true
      \/ nullish (JArr [JObj [("_id", JStr "ro_1")]]) = true
      \/ JArr [JObj [("_id", JStr "ro_1")]] = JArr [] ->
      getRow rowService (tableDatasource "ta_orders") (JStr "ro_1")
      = Return JUndefined).
Proof.
  exact (getRow_returns_the_first_row rowService (tableDatasource "ta_orders")
           (JStr "ro_1")
           (JObj [("rows", JArr [JObj [("_id", JStr "ro_1")]])])
           eq_refl eq_refl).
Defined.

Example getRow_finds_the_row :
  getRow rowService (tableDatasource "ta_orders") (JStr "ro_1")
  = Return (JObj [("_id", JStr "ro_1")]).
Proof. reflexivity. Qed.

(** A row that carries the identifier of another table is sent under
    the table of the datasource. *)
Example saveRow_overrides_the_table :
  saveRow rowService (tableDatasource "ta_orders")
          (JObj [("tableId", JStr "ta_users"); ("name", JStr "Ada")])
  = Return (JObj [("tableId", JStr "ta_orders"); ("name", JStr "Ada")]).
Proof. reflexivity. Qed.

End TableStoreMore.
